(** * pino-transport-rotating: a shallow embedding of the transport

    The repository ships three near-identical versions of the transport:
    - [src/src/index.ts]          (module [IndexTs])
    - [src/unnamed/part_000]      (module [Part000])
    - [src/unnamed/part_001]      (module [Part001], the one with the
                                    post-rotation gzip compressor)

    The shared machinery first: JavaScript number printing, [padStart],
    POSIX [path.join] as implemented by Node, and the [Date] getters. *)

From Stdlib Require Import ZArith Ascii.
From Stdlib Require Import DecimalString DecimalZ.
From stdpp Require Import base list gmap strings.

Open Scope Z_scope.

(* ------------------------------------------------------------------ *)
(** ** JavaScript values used by the code *)

(** A JS number as the code meets it: an integer, or [NaN] ([None]). *)
Definition js_number := option Z.

(** [Number.prototype.toString()] on an integer-valued number. *)
Definition num_to_string (n : js_number) : string :=
  match n with
  | Some z => NilEmpty.string_of_int (Z.to_int z)
  | None => "NaN"
  end.

(** [String.prototype.padStart(n, fill)] with a one-character fill. *)
Definition pad_start (s : string) (n : nat) (fill : ascii) : string :=
  String.string_of_list_ascii (repeat fill (n - String.length s)%nat) +:+ s.

(** [const pad = (num) => num.toString().padStart(2, '0')]. *)
Definition pad (num : js_number) : string := pad_start (num_to_string num) 2 "0".

(* ------------------------------------------------------------------ *)
(** ** Node's POSIX [path.join] and [path.normalize] *)

Definition slash : ascii := "/".

(** [path.split('/')]: the segments between separators. *)
Fixpoint segments (s : string) : list string :=
  match s with
  | EmptyString => [EmptyString]
  | String c r =>
      if ascii_dec c slash then EmptyString :: segments r
      else match segments r with
           | x :: xs => String c x :: xs
           | [] => [String c EmptyString]
           end
  end.

(** One step of [normalizeString]: the result so far is kept as a stack
    of segments, most recent first. *)
Definition norm_step (allow_above_root : bool) (stack : list string)
    (seg : string) : list string :=
  if decide (seg = "") then stack
  else if decide (seg = ".") then stack
  else if decide (seg = "..") then
    match stack with
    | last :: rest =>
        if decide (last = "..") then
          (if allow_above_root then ".." :: stack else stack)
        else rest
    | [] => if allow_above_root then [".."] else []
    end
  else seg :: stack.

(** [normalizeString(path, allowAboveRoot, '/', ...)]. *)
Definition normalize_string (p : string) (allow_above_root : bool) : string :=
  String.concat "/"
    (reverse (foldl (norm_step allow_above_root) [] (segments p))).

Definition first_char (s : string) : option ascii :=
  match s with EmptyString => None | String c _ => Some c end.

Fixpoint last_char (s : string) : option ascii :=
  match s with
  | EmptyString => None
  | String c EmptyString => Some c
  | String _ r => last_char r
  end.

(** [path.posix.normalize]. *)
Definition normalize (p : string) : string :=
  if decide (p = "") then "."
  else
    let is_absolute := bool_decide (first_char p = Some slash) in
    let trailing_separator := bool_decide (last_char p = Some slash) in
    let r := normalize_string p (negb is_absolute) in
    if decide (r = "") then
      (if is_absolute then "/" else if trailing_separator then "./" else ".")
    else
      let r := if trailing_separator then r +:+ "/" else r in
      if is_absolute then "/" +:+ r else r.

(** [path.posix.join(a, b)]: the non-empty arguments joined by ['/'],
    then normalized. *)
Definition path_join (a b : string) : string :=
  let joined :=
    match a, b with
    | EmptyString, EmptyString => None
    | EmptyString, _ => Some b
    | _, EmptyString => Some a
    | _, _ => Some (a +:+ "/" +:+ b)
    end in
  match joined with
  | None => "."
  | Some j => normalize j
  end.


(* ------------------------------------------------------------------ *)
(** ** [Date]

    A [Date] holds a time value: milliseconds since the epoch, or [NaN]
    for an invalid date. The local-time getters go through the host's
    time-zone offset [tz] (milliseconds, as a function of the UTC time). *)

Definition ms_per_day : Z := 86400000.

(** [TimeClip]: values beyond 8.64e15 ms are [NaN]. *)
Definition time_clip (t : Z) : js_number :=
  if Z.abs t <=? 8640000000000000 then Some t else None.

(** Year of era (0..399), month (1..12) and day (1..31) of a day of a
    400-year era (0..146096, the era starting on March 1st). *)
Definition doe_parts (doe : Z) : Z * Z * Z :=
  let yoe := (doe - doe / 1460 + doe / 36524 - doe / 146096) / 365 in
  let doy := doe - (365 * yoe + yoe / 4 - yoe / 100) in
  let mp := (5 * doy + 2) / 153 in
  let d := doy - (153 * mp + 2) / 5 + 1 in
  let m := if mp <? 10 then mp + 3 else mp - 9 in
  (yoe, m, d).

(** Year, month (1..12) and day (1..31) of a day number (days since
    1970-01-01), as [YearFromTime], [MonthFromTime] and [DateFromTime]
    compute them on the proleptic Gregorian calendar. *)
Definition civil_from_days (z : Z) : Z * Z * Z :=
  let z := z + 719468 in
  let era := z / 146097 in
  let doe := z - era * 146097 in
  let '(yoe, m, d) := doe_parts doe in
  let y := yoe + era * 400 in
  (if m <=? 2 then y + 1 else y, m, d).

Definition local_time (tz : Z -> Z) (t : Z) : Z := t + tz t.

Definition local_ymd (tz : Z -> Z) (t : Z) : Z * Z * Z :=
  civil_from_days (local_time tz t / ms_per_day).

(** [getFullYear()], [getMonth()] (0-based) and [getDate()]. *)
Definition get_full_year (tz : Z -> Z) (tv : js_number) : js_number :=
  (fun t => (local_ymd tz t).1.1) <$> tv.
Definition get_month (tz : Z -> Z) (tv : js_number) : js_number :=
  (fun t => (local_ymd tz t).1.2 - 1) <$> tv.
Definition get_date (tz : Z -> Z) (tv : js_number) : js_number :=
  (fun t => (local_ymd tz t).2) <$> tv.

Definition js_add (a : js_number) (k : Z) : js_number := (fun x => x + k) <$> a.

(** The [time] argument of a filename generator: [number | Date | null].
    Numbers are integer-valued or [NaN]. *)
Inductive time_arg :=
  | TNull
  | TNumber (n : js_number)
  | TDate (tv : js_number).

(** [!time]. *)
Definition falsy (time : time_arg) : bool :=
  match time with
  | TNull => true
  | TNumber None => true
  | TNumber (Some n) => bool_decide (n = 0)
  | TDate _ => false
  end.

(** The time value of [new Date(time)] for a truthy [time]. *)
Definition new_date (time : time_arg) : js_number :=
  match time with
  | TNull => Some 0
  | TNumber n => n ≫= time_clip
  | TDate tv => tv
  end.

(** [`${index}`] for [index : number | undefined]. *)
Definition index_to_string (index : option Z) : string :=
  match index with
  | Some i => num_to_string (Some i)
  | None => "undefined"
  end.


(* ------------------------------------------------------------------ *)
(** ** What [createStream] and the transport factory hand back *)

(** The options object given to [createStream] of rotating-file-stream. *)
Record stream_options := {
  so_size : string;
  so_interval : string;
  so_compress : option string;   (* absent in part_001 *)
  so_immutable : bool;
}.

(** The value the factory's promise resolves to:
    - [Passthrough]: [build((source) => source, ...)], the disabled transport;
    - [Rotating gen so]: [build] around the pretty stream piped into a
      rotating-file-stream created with filename generator [gen] and
      options [so]. *)
Inductive transport :=
  | Passthrough
  | Rotating (gen : time_arg -> option Z -> option string) (so : stream_options).

(** An [async] factory either rejects (a [throw] in its body) or
    resolves. *)
Inductive result :=
  | Rejected (message : string)
  | Resolved (t : transport).

(** Side effects performed while the factory body runs. *)
Inductive effect :=
  | CreateStream (so : stream_options)   (* opens the log directory/file *)
  | OnRotated.                            (* registers the 'rotated' listener *)

(* ------------------------------------------------------------------ *)
(** ** [src/src/index.ts] *)

Module IndexTs.

Record options := {
  dir : option string;
  filename : option string;
  enabled : option bool;
  size : option string;
  interval : option string;
  compress : option string;
  immutable : option bool;
}.

(** The default parameter value [options = {...}]. *)
Definition default_options : options := {|
  dir := Some ""; filename := Some "app"; enabled := Some true;
  size := Some "10M"; interval := Some "1d"; compress := Some "gzip";
  immutable := Some true |}.

(** [const generator = (time, index) => {...}], closed over [dir] and
    [filename]. The getters are called on [time] itself: a truthy
    number has no [getFullYear] and the call throws a [TypeError]
    ([None]). *)
Definition generator (tz : Z -> Z) (dir filename : string)
    (time : time_arg) (index : option Z) : option string :=
  if falsy time then Some (path_join dir "app.log")
  else
    match time with
    | TDate tv =>
        let date := num_to_string (get_full_year tz tv) +:+ "-" +:+
                    pad (js_add (get_month tz tv) 1) +:+ "-" +:+
                    pad (get_date tz tv) in
        Some (path_join dir
                (filename +:+ "-" +:+ date +:+ "." +:+ index_to_string index +:+ ".log"))
    | _ => None
    end.

(** [pinoTransportRotatingFile(options)]: the destructuring defaults,
    the [enabled] and [dir] guards, then [createStream]. *)
Definition pinoTransportRotatingFile (tz : Z -> Z) (arg : option options)
    : result * list effect :=
  let o := default default_options arg in
  let dir := default "" (dir o) in
  let filename := default "app" (filename o) in
  let enabled := default true (enabled o) in
  let size := default "10M" (size o) in
  let interval := default "1d" (interval o) in
  let compress := default "gzip" (compress o) in
  let immutable := default true (immutable o) in
  if negb enabled then (Resolved Passthrough, [])
  else if decide (dir = "") then (Rejected "Missing required option: dir", [])
  else
    let so := {| so_size := size; so_interval := interval;
                 so_compress := Some compress; so_immutable := immutable |} in
    (Resolved (Rotating (generator tz dir filename) so), [CreateStream so]).

End IndexTs.

(* ------------------------------------------------------------------ *)
(** ** [src/unnamed/part_000] *)

Module Part000.

Record options := {
  dir : option string;
  filename : option string;
  enabled : option bool;
  size : option string;
  interval : option string;
  compress : option string;
  immutable : option bool;
}.

Definition default_options : options := {|
  dir := Some ""; filename := Some "app"; enabled := Some true;
  size := Some "100K"; interval := Some "1d"; compress := Some "gzip";
  immutable := Some true |}.

(** The date token of [generator]:
    [`${_date.getFullYear()}-${pad(_date.getMonth() + 1)}-${pad(_date.getDate())}`]. *)
Definition date_token (tz : Z -> Z) (tv : js_number) : string :=
  num_to_string (get_full_year tz tv) +:+ "-" +:+
  pad (js_add (get_month tz tv) 1) +:+ "-" +:+ pad (get_date tz tv).

(** [export function generator(time, index, dir, filename)]. *)
Definition generator (tz : Z -> Z) (time : time_arg) (index : option Z)
    (dir filename : string) : string :=
  if falsy time then path_join dir (filename +:+ ".log")
  else
    let date := date_token tz (new_date time) in
    path_join dir (filename +:+ "-" +:+ date +:+ "." +:+ index_to_string index +:+ ".log").

Definition pinoTransportRotatingFile (tz : Z -> Z) (arg : option options)
    : result * list effect :=
  let o := default default_options arg in
  let filename := default "app" (filename o) in
  let enabled := default true (enabled o) in
  let size := default "100K" (size o) in
  let interval := default "1d" (interval o) in
  let compress := default "gzip" (compress o) in
  let immutable := default true (immutable o) in
  if negb enabled then (Resolved Passthrough, [])
  else
    match dir o with
    | None | Some "" => (Rejected "Missing required option: dir", [])
    | Some dir =>
        let so := {| so_size := size; so_interval := interval;
                     so_compress := Some compress; so_immutable := immutable |} in
        (Resolved (Rotating (fun time index => Some (generator tz time index dir filename)) so),
         [CreateStream so])
    end.

End Part000.


(* ------------------------------------------------------------------ *)
(** ** [src/unnamed/part_001] *)

Module Part001.

Record options := {
  dir : option string;
  filename : option string;
  enabled : option bool;
  size : option string;
  interval : option string;
  compress : option bool;
  immutable : option bool;
}.

Definition default_options : options := {|
  dir := Some ""; filename := Some "app"; enabled := Some true;
  size := Some "100K"; interval := Some "1d"; compress := Some true;
  immutable := Some true |}.

(** [Date.prototype.toISOString()]; [None] is the [RangeError] thrown on
    an invalid date. Years outside 0..9999 get a sign and six digits. *)
Definition to_iso_string (tv : js_number) : option string :=
  match tv with
  | None => None
  | Some t =>
      let '(y, m, d) := civil_from_days (t / ms_per_day) in
      let ms := t mod ms_per_day in
      let p2 z := pad_start (num_to_string (Some z)) 2 "0" in
      let year :=
        if (0 <=? y) && (y <=? 9999) then pad_start (num_to_string (Some y)) 4 "0"
        else (if y <? 0 then "-" else "+") +:+
             pad_start (num_to_string (Some (Z.abs y))) 6 "0" in
      Some (year +:+ "-" +:+ p2 m +:+ "-" +:+ p2 d +:+ "T" +:+
            p2 (ms / 3600000) +:+ ":" +:+ p2 (ms / 60000 mod 60) +:+ ":" +:+
            p2 (ms / 1000 mod 60) +:+ "." +:+
            pad_start (num_to_string (Some (ms mod 1000))) 3 "0" +:+ "Z")
  end.

(** [s.replace(/[-:T]/g, '')]. *)
Fixpoint strip_iso_separators (s : string) : string :=
  match s with
  | EmptyString => EmptyString
  | String c r =>
      if decide (c = "-"%char \/ c = ":"%char \/ c = "T"%char)
      then strip_iso_separators r
      else String c (strip_iso_separators r)
  end.

(** [s.split('.')[0]]. *)
Fixpoint before_first_dot (s : string) : string :=
  match s with
  | EmptyString => EmptyString
  | String c r => if decide (c = "."%char) then EmptyString else String c (before_first_dot r)
  end.

(** [function generator(time, dir, filename)]; [None] when
    [toISOString] throws. *)
Definition generator (time : time_arg) (dir filename : string) : option string :=
  if falsy time then Some (path_join dir (filename +:+ ".log"))
  else
    match to_iso_string (new_date time) with
    | None => None
    | Some iso =>
        let timestamp := before_first_dot (strip_iso_separators iso) in
        Some (path_join dir (filename +:+ "-" +:+ timestamp +:+ ".log"))
    end.


(* ---------------------------------------------------------------- *)
(** *** Files, errors and the promise-returning fs calls

    The file system maps paths to regular files (their bytes) or
    directories. Faults of the I/O primitives are fixed by a [fault_plan]
    chosen in advance, as a test would inject them. *)

Inductive entry :=
  | EFile (content : list Byte.byte)
  | EDir.

(** A rejected promise / thrown value: a Node system error with its
    [code]. *)
Record exn := { code : string }.

Inductive console_line :=
  | ConsoleWarn (msg : string)
  | ConsoleError (msg : string) (err : option exn).

Record fault_plan := {
  stat_fault : option string;          (* stat() rejects with this code *)
  pipe_fault : option (nat * bool);    (* the gzip pipeline errors after n
                                          output bytes; bool: the write
                                          stream had opened dest *)
  unlink_fault : option string;        (* unlink() rejects with this code *)
}.

Definition no_faults : fault_plan := {| stat_fault := None; pipe_fault := None; unlink_fault := None |}.

Record world := {
  fs : gmap string entry;
  console : list console_line;
  faults : fault_plan;
}.

Definition set_fs (w : world) (m : gmap string entry) : world :=
  {| fs := m; console := console w; faults := faults w |}.
Definition log (w : world) (l : console_line) : world :=
  {| fs := fs w; console := console w ++ [l]; faults := faults w |}.

(** An [async] computation run to completion: it threads the world and
    resolves ([inr]) or rejects ([inl]). *)
Definition io (A : Type) : Type := world -> world * (exn + A).

Global Instance io_ret : MRet io := fun A x w => (w, inr x).
Global Instance io_bind : MBind io := fun A B f m w =>
  match m w with
  | (w', inl e) => (w', inl e)
  | (w', inr x) => f x w'
  end.

Definition throw {A} (e : exn) : io A := fun w => (w, inl e).

(** [try { m } catch (e) { h(e) }]. *)
Definition try_catch {A} (m : io A) (h : exn -> io A) : io A := fun w =>
  match m w with
  | (w', inl e) => h e w'
  | (w', inr x) => (w', inr x)
  end.

Definition console_warn (msg : string) : io unit := fun w => (log w (ConsoleWarn msg), inr tt).
Definition console_error (msg : string) (e : option exn) : io unit :=
  fun w => (log w (ConsoleError msg e), inr tt).

(** [fs/promises.access(path)]. *)
Definition access (p : string) : io unit := fun w =>
  match fs w !! p with
  | Some _ => (w, inr tt)
  | None => (w, inl {| code := "ENOENT" |})
  end.

(** [fs/promises.stat(path)]. *)
Definition stat (p : string) : io entry := fun w =>
  match stat_fault (faults w) with
  | Some c => (w, inl {| code := c |})
  | None =>
      match fs w !! p with
      | Some e => (w, inr e)
      | None => (w, inl {| code := "ENOENT" |})
      end
  end.

(** [fs/promises.unlink(path)]. *)
Definition unlink (p : string) : io unit := fun w =>
  match unlink_fault (faults w) with
  | Some c => (w, inl {| code := c |})
  | None =>
      match fs w !! p with
      | Some _ => (set_fs w (delete p (fs w)), inr tt)
      | None => (w, inl {| code := "ENOENT" |})
      end
  end.

Definition is_directory (e : entry) : bool := match e with EDir => true | EFile _ => false end.
Definition is_file (e : entry) : bool := negb (is_directory e).

Section Compressor.

(** The gzip transform of [createGzip()]: a byte-stream encoder. *)
Variable gzip : list Byte.byte -> list Byte.byte.

(** [pipelineAsync(createReadStream(src), createGzip(), createWriteStream(dest))]:
    the write stream (flags 'w') truncates or creates [dest] when it
    opens; on a fault the pipeline rejects after the output written so
    far. *)
Definition pipeline_gzip (src dest : string) : io unit := fun w =>
  match fs w !! src with
  | Some (EFile c) =>
      match pipe_fault (faults w) with
      | None => (set_fs w (<[dest := EFile (gzip c)]> (fs w)), inr tt)
      | Some (n, opened) =>
          let w' := if opened then set_fs w (<[dest := EFile (take n (gzip c))]> (fs w)) else w in
          (w', inl {| code := "ERR_STREAM_PREMATURE_CLOSE" |})
      end
  | Some EDir => (w, inl {| code := "EISDIR" |})
  | None => (w, inl {| code := "ENOENT" |})
  end.

(** [async function fileExists(path)]. *)
Definition fileExists (p : string) : io bool :=
  try_catch (_ ← access p; mret true) (fun _ => mret false).

(** [async function compressFile(src, dest)]. *)
Definition compressFile (src dest : string) : io unit :=
  try_catch
    (exists_ ← fileExists src;
     if negb exists_ then
       console_warn ("Skipping compression, file does not exist: " +:+ src)
     else
       stats ← stat src;
       if is_directory stats then
         console_warn ("Skipping compression, source is a directory: " +:+ src)
       else
         _ ← pipeline_gzip src dest;
         dest_exists ← fileExists dest;
         if (dest_exists : bool) then
           try_catch (unlink src)
             (fun unlinkError =>
                if decide (code unlinkError <> "ENOENT") then
                  console_error ("Error unlinking original file " +:+ src +:+ ":") (Some unlinkError)
                else mret tt)
         else
           console_error ("Compression failed: Destination file " +:+ dest +:+ " not found.") None)
    (fun error => console_error ("Error compressing file " +:+ src +:+ ":") (Some error)).

End Compressor.


(* ---------------------------------------------------------------- *)
(** *** The 'rotated' listener and the event loop

    [rotatingStream.on('rotated', async (rotatedFile) => {...})]. The
    listener body runs synchronously up to its first [await]; each
    pending [await] is a task of the event loop, and the loop settles
    pending tasks in any order. [attempts] records every call of
    [compressFile]. *)

Inductive task :=
  | AwaitStat (p : string)       (* await stat(rotatedFile) *)
  | AwaitCompress (p : string).  (* await compressFile(rotatedFile, ...) *)

Record loop_state := {
  listening : bool;                 (* the listener is registered *)
  compressedFiles : gset string;
  pending : list task;
  attempts : list string;
  lw : world;
}.

Inductive event :=
  | Rotated (p : string)   (* rotatingStream emits 'rotated' with p *)
  | Settle (i : nat).      (* the i-th pending await settles *)

Definition with_world (s : loop_state) (w : world) (ps : list task) : loop_state :=
  {| listening := listening s; compressedFiles := compressedFiles s;
     pending := ps; attempts := attempts s; lw := w |}.

(** The listener body up to [await stat(rotatedFile)]. *)
Definition on_rotated (s : loop_state) (rotatedFile : string) : loop_state :=
  if bool_decide (rotatedFile ∈ compressedFiles s) then s
  else with_world s (lw s) (pending s ++ [AwaitStat rotatedFile]).

(** Remove the [i]-th element of a list. *)
Fixpoint remove_at {A} (i : nat) (l : list A) : list A :=
  match l, i with
  | [], _ => []
  | _ :: r, O => r
  | x :: r, S i => x :: remove_at i r
  end.

Section Loop.

Variable gzip : list Byte.byte -> list Byte.byte.

(** The listener body from a settled [await] to the next one (or to its
    end); [rest] is the pending list without the settled task. *)
Definition resume (s : loop_state) (rest : list task) (t : task) : loop_state :=
  match t with
  | AwaitStat rotatedFile =>
      match stat rotatedFile (lw s) with
      | (w, inl err) =>
          with_world s
            (log w (ConsoleError ("Error compressing rotated file " +:+ rotatedFile +:+ ":") (Some err)))
            rest
      | (w, inr st) =>
          if is_file st then
            (* const compressedFile = `${rotatedFile}.gz`; await compressFile(...) *)
            {| listening := listening s; compressedFiles := compressedFiles s;
               pending := rest ++ [AwaitCompress rotatedFile];
               attempts := attempts s ++ [rotatedFile]; lw := w |}
          else
            with_world s
              (log w (ConsoleWarn ("Skipping compression, rotated file is a directory: " +:+ rotatedFile)))
              rest
      end
  | AwaitCompress rotatedFile =>
      let w := (compressFile gzip rotatedFile (rotatedFile +:+ ".gz") (lw s)).1 in
      (* compressedFiles.add(rotatedFile) *)
      {| listening := listening s; compressedFiles := {[rotatedFile]} ∪ compressedFiles s;
         pending := rest; attempts := attempts s; lw := w |}
  end.

Definition step (s : loop_state) (ev : event) : loop_state :=
  match ev with
  | Rotated p => if listening s then on_rotated s p else s
  | Settle i =>
      match pending s !! i with
      | Some t => resume s (remove_at i (pending s)) t
      | None => s
      end
  end.

Definition run (s : loop_state) (evs : list event) : loop_state := foldl step s evs.

End Loop.

(** The state right after construction: the ledger is empty and the
    listener is registered iff [compress]. *)
Definition initial_loop (compress : bool) (w : world) : loop_state :=
  {| listening := compress; compressedFiles := ∅; pending := []; attempts := []; lw := w |}.

(* ---------------------------------------------------------------- *)
(** *** The factory *)

Definition pinoTransportRotatingFile (arg : option options) : result * list effect :=
  let o := default default_options arg in
  let filename := default "app" (filename o) in
  let enabled := default true (enabled o) in
  let size := default "100K" (size o) in
  let interval := default "1d" (interval o) in
  let compress := default true (compress o) in
  let immutable := default true (immutable o) in
  if negb enabled then (Resolved Passthrough, [])
  else
    match dir o with
    | None | Some "" => (Rejected "Missing required option: dir", [])
    | Some dir =>
        let so := {| so_size := size; so_interval := interval;
                     so_compress := None; so_immutable := immutable |} in
        (Resolved (Rotating (fun time _ => generator time dir filename) so),
         [CreateStream so] ++ (if compress then [OnRotated] else []))
    end.


(* ---------------------------------------------------------------- *)
(** *** The render stage and the write path

    [prettyStream] is a [Transform] whose [transform] calls [pretty];
    [pipeline(source, prettyStream, rotatingStream, cb)] connects it to
    the rotating stream. Node's stream semantics used here: a
    [callback(error)] from [transform] errors and destroys the stream
    ([autoDestroy: true]); [pipeline] then destroys every stream of the
    chain and calls [cb] with that error once, so no later record reaches
    [transform].

    The model follows the transform stage: [written] lists the chunks it
    passes on towards [rotatingStream]. Errors raised by [rotatingStream]
    itself (opening or writing a file) are not modelled; [deliver] counts
    every chunk passed on as written to the active file, which holds while
    the rotating stream accepts them and the chain is not torn down. *)

(** What [pretty] may throw: an [Error] (with its message) or another
    value (with [String(value)]). *)
Inductive thrown :=
  | ThrownError (message : string)
  | ThrownOther (repr : string).

(** [error instanceof Error ? error : new Error(String(error) || 'An unknown error occurred')],
    as the message of the resulting [Error]. *)
Definition to_error (t : thrown) : string :=
  match t with
  | ThrownError m => m
  | ThrownOther s => if decide (s = "") then "An unknown error occurred" else s
  end.

Record pipe_state := {
  destroyed : bool;
  written : list string;        (* chunks [prettyStream] passes on, [callback(null, prettyLog)] *)
  transport_log : list string;  (* errors of [prettyStream] given to [pipeline]'s callback, which
                                   logs each with console.error('Failed to write log in transport:', err) *)
}.

Definition pipe_init : pipe_state := {| destroyed := false; written := []; transport_log := [] |}.

Section Render.

Variable record : Type.
(** [prettyFactory({colorize: false})]: renders a record or throws. *)
Variable pretty : record -> thrown + string.

(** One record through [transform(chunk, encoding, callback)]. *)
Definition transform (s : pipe_state) (chunk : record) : pipe_state :=
  if destroyed s then s
  else
    match pretty chunk with
    | inr prettyLog =>
        (* callback(null, prettyLog) *)
        {| destroyed := false; written := written s ++ [prettyLog]; transport_log := transport_log s |}
    | inl error =>
        (* callback(error): the chain is destroyed, the pipeline callback logs *)
        {| destroyed := true; written := written s; transport_log := transport_log s ++ [to_error error] |}
    end.

Definition run_pipeline (records : list record) : pipe_state := foldl transform pipe_init records.

(** Filesystem operations caused by delivering records to a transport. *)
Inductive fs_op := WriteActive (chunk : string).

(** The disabled transport's stage: [(source) => source]. *)
Definition disabled_stage (source : list record) : list record := source.

Definition deliver (t : transport) (records : list record) : list record * list fs_op :=
  match t with
  | Passthrough => (disabled_stage records, [])
  | Rotating _ _ => ([], WriteActive <$> written (run_pipeline records))
  end.

End Render.

End Part001.

(* ------------------------------------------------------------------ *)
(** ** The render stage of [src/unnamed/part_000]

    The same [Transform] as in part_001, with its own conversion of what
    [pretty] throws (lines 136-145). *)

Module Part000Render.

(** What [pretty] may throw: an [Error] (with its message), a string, or
    another value. *)
Inductive thrown :=
  | ThrownError (message : string)
  | ThrownString (s : string)
  | ThrownOther.

(** [error instanceof Error ? error : typeof error === 'string' ?
    new Error(error) : new Error('An unknown error occurred')], as the
    message of the resulting [Error]. *)
Definition to_error (t : thrown) : string :=
  match t with
  | ThrownError m => m
  | ThrownString s => s
  | ThrownOther => "An unknown error occurred"
  end.

Section Render.

Variable record : Type.
Variable pretty : record -> thrown + string.

Definition transform (s : Part001.pipe_state) (chunk : record) : Part001.pipe_state :=
  if Part001.destroyed s then s
  else
    match pretty chunk with
    | inr prettyLog =>
        {| Part001.destroyed := false; Part001.written := Part001.written s ++ [prettyLog];
           Part001.transport_log := Part001.transport_log s |}
    | inl error =>
        {| Part001.destroyed := true; Part001.written := Part001.written s;
           Part001.transport_log := Part001.transport_log s ++ [to_error error] |}
    end.

Definition run_pipeline (records : list record) : Part001.pipe_state :=
  foldl transform Part001.pipe_init records.

End Render.

End Part000Render.

(* ================================================================== *)
(** * Concrete inputs *)

Definition utc : Z -> Z := fun _ => 0.

(** Options objects that set only some fields; the others are
    [undefined]. *)
Definition index_opts (dir filename : option string) : IndexTs.options := {|
  IndexTs.dir := dir; IndexTs.filename := filename; IndexTs.enabled := None;
  IndexTs.size := None; IndexTs.interval := None; IndexTs.compress := None;
  IndexTs.immutable := None |}.

Definition part001_opts (dir filename : option string) : Part001.options := {|
  Part001.dir := dir; Part001.filename := filename; Part001.enabled := None;
  Part001.size := None; Part001.interval := None; Part001.compress := None;
  Part001.immutable := None |}.

(** Options objects with [enabled: false]. *)
Definition index_disabled : IndexTs.options := {|
  IndexTs.dir := None; IndexTs.filename := None; IndexTs.enabled := Some false;
  IndexTs.size := None; IndexTs.interval := None; IndexTs.compress := None;
  IndexTs.immutable := None |}.
Definition part000_disabled : Part000.options := {|
  Part000.dir := Some ""; Part000.filename := None; Part000.enabled := Some false;
  Part000.size := None; Part000.interval := None; Part000.compress := None;
  Part000.immutable := None |}.
Definition part001_disabled : Part001.options := {|
  Part001.dir := None; Part001.filename := None; Part001.enabled := Some false;
  Part001.size := None; Part001.interval := None; Part001.compress := None;
  Part001.immutable := None |}.

(** A rotated file and a world holding it, no injected fault. *)
Definition p0 : string := "/logs/app-20240101000000.log".
Definition w_race : Part001.world := {|
  Part001.fs := {[p0 := Part001.EFile [Byte.x41; Byte.x42]]};
  Part001.console := []; Part001.faults := Part001.no_faults |}.

(** A stand-in gzip encoder: the magic byte, then the input. *)
Definition gz_stub (l : list Byte.byte) : list Byte.byte := Byte.x1f :: l.
Definition gunzip_stub (l : list Byte.byte) : list Byte.byte := tail l.

(** The same world with the gzip pipeline failing after one output byte,
    once the write stream has opened the destination. *)
Definition w_pipe_fault : Part001.world := {|
  Part001.fs := {[p0 := Part001.EFile [Byte.x41; Byte.x42]]};
  Part001.console := [];
  Part001.faults := {| Part001.stat_fault := None; Part001.pipe_fault := Some (1%nat, true);
                       Part001.unlink_fault := None |} |}.

(** The line terminator pino-pretty appends (EOL, "\n"). *)
Definition eol : string := String "010"%char EmptyString.

(** A renderer for part_000 that throws a number (not an [Error], not a
    string) on the record "bad". *)
Definition pretty0_stub (r : string) : Part000Render.thrown + string :=
  if decide (r = "bad") then inl Part000Render.ThrownOther else inr (r +:+ eol).

(** A renderer that throws on the record "bad". *)
Definition pretty_stub (r : string) : Part001.thrown + string :=
  if decide (r = "bad") then inl (Part001.ThrownError "Unexpected token b in JSON")
  else inr (r +:+ eol).

(** The failure of a stage of [compressFile] on a regular file: [stat]
    rejects, the gzip pipeline rejects, or [unlink] rejects with a code
    other than ENOENT. *)
Definition stage_fails (w : Part001.world) (src : string) : Prop :=
  (exists c, Part001.fs w !! src = Some (Part001.EFile c)) /\
  (is_Some (Part001.stat_fault (Part001.faults w)) \/
   is_Some (Part001.pipe_fault (Part001.faults w)) \/
   exists code, Part001.unlink_fault (Part001.faults w) = Some code /\ code <> "ENOENT").

(** Two times an hour apart on 2024-01-01 (UTC): 10:00 and 11:00. *)
Definition t_10h : Z := 1704103200000.
Definition t_11h : Z := 1704106800000.
Definition ms_per_hour : Z := 3600000.

(** A world without files; a world where [p0] is a directory; a world
    whose [stat] rejects with EACCES; a world whose [unlink] rejects with
    ENOENT. *)
Definition w_empty : Part001.world := {|
  Part001.fs := ∅; Part001.console := []; Part001.faults := Part001.no_faults |}.
Definition w_dir : Part001.world := {|
  Part001.fs := {[p0 := Part001.EDir]}; Part001.console := [];
  Part001.faults := Part001.no_faults |}.
Definition w_stat_fault : Part001.world := {|
  Part001.fs := {[p0 := Part001.EFile [Byte.x41; Byte.x42]]};
  Part001.console := [];
  Part001.faults := {| Part001.stat_fault := Some "EACCES"; Part001.pipe_fault := None;
                       Part001.unlink_fault := None |} |}.
Definition w_unlink_enoent : Part001.world := {|
  Part001.fs := {[p0 := Part001.EFile [Byte.x41; Byte.x42]]};
  Part001.console := [];
  Part001.faults := {| Part001.stat_fault := None; Part001.pipe_fault := None;
                       Part001.unlink_fault := Some "ENOENT" |} |}.

(* ================================================================== *)
(** * Inverse functions and decidable checks used by the proofs *)

(** The inverse of [doe_parts]: the day of the era of a year of era,
    month and day. *)
Definition doe_of (yoe m d : Z) : Z :=
  let mp := if 2 <? m then m - 3 else m + 9 in
  let doy := (153 * mp + 2) / 5 + d - 1 in
  yoe * 365 + yoe / 4 - yoe / 100 + doy.

(** The inverse of [civil_from_days]: the day number of a date. *)
Definition days_from_civil (ymd : Z * Z * Z) : Z :=
  let '(y, m, d) := ymd in
  let y := if m <=? 2 then y - 1 else y in
  let era := y / 400 in
  let yoe := y - era * 400 in
  era * 146097 + doe_of yoe m d - 719468.

(** [doe_parts] on one day of the era: the year of era lies in 0..399,
    the month in 1..12, the day in 1..31, and [doe_of] gives the day
    back. *)
Definition doe_check (doe : Z) : bool :=
  let '(yoe, m, d) := doe_parts doe in
  (0 <=? yoe) && (yoe <? 400) && (1 <=? m) && (m <=? 12) &&
  (1 <=? d) && (d <=? 31) && (doe_of yoe m d =? doe).

(** The integers [lo], [lo + 1], ..., [lo + n - 1]. *)
Fixpoint range_nat (lo : Z) (n : nat) : list Z :=
  match n with
  | O => []
  | S n => lo :: range_nat (lo + 1) n
  end.
Definition range (lo n : Z) : list Z := range_nat lo (Z.to_nat n).

(** [pad] on a day or month number [a]: two characters, and no other
    number of 1..31 is padded to the same string. *)
Definition pad_check (a : Z) : bool :=
  (String.length (pad (Some a)) =? 2)%nat &&
  forallb (fun b => negb (bool_decide (pad (Some a) = pad (Some b))) || (a =? b))
    (range 1 31).

(** No ['/'] in the string. *)
Fixpoint no_slash (s : string) : bool :=
  match s with
  | EmptyString => true
  | String c r => negb (bool_decide (c = slash)) && no_slash r
  end.

(** No ['.'] in the string. *)
Fixpoint no_dot (s : string) : bool :=
  match s with
  | EmptyString => true
  | String c r => negb (bool_decide (c = "."%char)) && no_dot r
  end.

(** The value of a string of decimal digits, read after [acc]. *)
Definition digit_val (c : ascii) : Z := Z.of_nat (nat_of_ascii c) - 48.
Fixpoint digits_val (acc : Z) (s : string) : Z :=
  match s with
  | EmptyString => acc
  | String c r => digits_val (acc * 10 + digit_val c) r
  end.

(** [pad_start] of the decimal string of [z] to width [w]: [w]
    characters, which read back as [z], with none of the characters
    [-], [:], [T] or ['.']. *)
Definition pad_width_check (w : nat) (z : Z) : bool :=
  let s := pad_start (num_to_string (Some z)) w "0" in
  (String.length s =? w)%nat && (digits_val 0 s =? z) &&
  bool_decide (Part001.strip_iso_separators s = s) && no_dot s.

(** The UTC date and time of the second [k] since the epoch as
    [YYYYMMDDhhmmss]. *)
Definition iso_compact (k : Z) : string :=
  let '(y, m, d) := civil_from_days (k / 86400) in
  let u := k mod 86400 in
  pad_start (num_to_string (Some y)) 4 "0" +:+ pad (Some m) +:+ pad (Some d) +:+
  pad (Some (u / 3600)) +:+ pad (Some (u / 60 mod 60)) +:+ pad (Some (u mod 60)).

(** The frame of a world change: files other than [src] and [dest]
    unchanged, the same faults, and at most [n] console lines appended. *)
Definition frame (src dest : string) (n : nat) (w w' : Part001.world) : Prop :=
  (forall q, q <> src -> q <> dest -> Part001.fs w' !! q = Part001.fs w !! q) /\
  Part001.faults w' = Part001.faults w /\
  exists l, Part001.console w' = Part001.console w ++ l /\ (length l <= n)%nat.

(* ================================================================== *)
(** * Evaluation on concrete inputs *)

Example path_join_simple : path_join "logs" "app.log" = "logs/app.log".
Proof. reflexivity. Qed.

Example path_join_dots : path_join "./a/../logs/" "x.log" = "logs/x.log".
Proof. reflexivity. Qed.

Example path_join_abs : path_join "/var//log" "x.log" = "/var/log/x.log".
Proof. reflexivity. Qed.

Example path_join_above : path_join "../../l" "x.log" = "../../l/x.log".
Proof. reflexivity. Qed.

Example pad_7 : pad (Some 7) = "07".
Proof. reflexivity. Qed.

Example pad_12 : pad (Some 12) = "12".
Proof. reflexivity. Qed.

Example pad_nan : pad None = "NaN".
Proof. reflexivity. Qed.

Example civil_epoch : civil_from_days 0 = (1970, 1, 1).
Proof. reflexivity. Qed.

Example civil_leap : civil_from_days 19782 = (2024, 2, 29).
Proof. reflexivity. Qed.

Example civil_neg : civil_from_days (-1) = (1969, 12, 31).
Proof. reflexivity. Qed.

Example gen000_null : Part000.generator utc TNull (Some 1) "logs" "server" = "logs/server.log".
Proof. reflexivity. Qed.

Example gen000_date :
  Part000.generator utc (TDate (Some 1704067200000)) (Some 1) "logs" "server"
  = "logs/server-2024-01-01.1.log".
Proof. vm_compute. reflexivity. Qed.

Example genIndex_null :
  IndexTs.generator utc "logs" "server" TNull None = Some "logs/app.log".
Proof. reflexivity. Qed.

Example gen001_date :
  Part001.generator (TDate (Some 1704110400123)) "logs" "app" = Some "logs/app-20240101120000.log".
Proof. vm_compute. reflexivity. Qed.

(* ================================================================== *)
(** * Facts about strings *)

Module StringFacts.

Lemma string_app_nil_l (b : string) : "" +:+ b = b.
Proof. reflexivity. Qed.

Lemma string_app_cons (c : ascii) (a b : string) : String c a +:+ b = String c (a +:+ b).
Proof. reflexivity. Qed.

Lemma string_app_length (a b : string) : String.length (a +:+ b) = (String.length a + String.length b)%nat.
Proof. induction a as [|ch a IH]; [done|]. rewrite string_app_cons. simpl. lia. Qed.

Lemma string_app_assoc (a b c : string) : (a +:+ b) +:+ c = a +:+ (b +:+ c).
Proof. induction a as [|ch a IH]; [done|]. rewrite !string_app_cons, IH. done. Qed.

Lemma string_app_inj (a b s t : string) :
  String.length a = String.length b -> a +:+ s = b +:+ t -> a = b /\ s = t.
Proof.
  revert b. induction a as [|c a IH]; intros [|c' b] Hl E; simpl in Hl; try lia; [auto|].
  rewrite !string_app_cons in E. injection E as -> E. destruct (IH b ltac:(lia) E) as [-> ->]. auto.
Qed.

Lemma string_app_cancel_l (a s t : string) : a +:+ s = a +:+ t -> s = t.
Proof. intros E. apply (string_app_inj a a s t eq_refl E). Qed.

Lemma string_app_cancel_r (a b s : string) : a +:+ s = b +:+ s -> a = b.
Proof.
  intros E. assert (Hl : String.length a = String.length b).
  { apply (f_equal String.length) in E. rewrite !string_app_length in E. lia. }
  apply (string_app_inj a b s s Hl E).
Qed.


End StringFacts.

(* ================================================================== *)
(** * Construction of the transport *)

Section Construction.

Variable tz : Z -> Z.

(** C6: with [enabled] true (given or by default) and [dir] undefined or
    empty, the factory rejects with "Missing required option: dir" and
    performs no effect: no stream or file is created, no listener is
    registered. Shown for index.ts and part_001. *)
Theorem missing_dir_rejects_before_effects :
  (forall o : IndexTs.options,
     IndexTs.enabled o <> Some false ->
     IndexTs.dir o = None \/ IndexTs.dir o = Some "" ->
     IndexTs.pinoTransportRotatingFile tz (Some o)
     = (Rejected "Missing required option: dir", [])) /\
  (forall o : Part001.options,
     Part001.enabled o <> Some false ->
     Part001.dir o = None \/ Part001.dir o = Some "" ->
     Part001.pinoTransportRotatingFile (Some o)
     = (Rejected "Missing required option: dir", [])).
Proof.
  split; intros o Hen Hdir.
  - unfold IndexTs.pinoTransportRotatingFile; simpl.
    destruct (IndexTs.enabled o) as [[|]|]; [| congruence |];
      destruct Hdir as [-> | ->]; reflexivity.
  - unfold Part001.pinoTransportRotatingFile; simpl.
    destruct (Part001.enabled o) as [[|]|]; [| congruence |];
      destruct Hdir as [-> | ->]; reflexivity.
Qed.


(** C10: with [enabled] false the factory of every version resolves to
    the pass-through transport, whatever [dir] is (undefined or empty
    included): the [enabled] branch returns before the [dir] check. *)
Theorem disabled_ignores_dir :
  (forall o : IndexTs.options, IndexTs.enabled o = Some false ->
     IndexTs.pinoTransportRotatingFile tz (Some o) = (Resolved Passthrough, [])) /\
  (forall o : Part000.options, Part000.enabled o = Some false ->
     Part000.pinoTransportRotatingFile tz (Some o) = (Resolved Passthrough, [])) /\
  (forall o : Part001.options, Part001.enabled o = Some false ->
     Part001.pinoTransportRotatingFile (Some o) = (Resolved Passthrough, [])).
Proof.
  split; [| split]; intros o Hen.
  - unfold IndexTs.pinoTransportRotatingFile; simpl; rewrite Hen; reflexivity.
  - unfold Part000.pinoTransportRotatingFile; simpl; rewrite Hen; reflexivity.
  - unfold Part001.pinoTransportRotatingFile; simpl; rewrite Hen; reflexivity.
Qed.

(** C7: with [enabled] false (part_001) the factory performs no effect
    and resolves to a transport whose stage hands every record on
    unchanged and causes no filesystem operation, for any number of
    records. *)
Theorem disabled_no_filesystem :
  forall o : Part001.options, Part001.enabled o = Some false ->
  exists t,
    Part001.pinoTransportRotatingFile (Some o) = (Resolved t, []) /\
    forall (record : Type) (pretty : record -> Part001.thrown + string)
           (records : list record),
      Part001.deliver record pretty t records = (records, []).
Proof.
  intros o Hen. exists Passthrough. split.
  - unfold Part001.pinoTransportRotatingFile; simpl; rewrite Hen; reflexivity.
  - intros record pretty records. reflexivity.
Qed.

(** C8 (index.ts): an options object without [size] gives rotating-file-
    stream the size "10M", not the documented default "100K". *)
Theorem index_ts_default_size :
  match IndexTs.pinoTransportRotatingFile tz (Some (index_opts (Some "logs") None)) with
  | (Resolved (Rotating _ so), [CreateStream so']) => so_size so = "10M" /\ so' = so
  | _ => False
  end.
Proof. split; reflexivity. Qed.

(** part_000 and part_001 use "100K" when [size] is omitted. *)
Lemma part00x_default_size :
  (forall o : Part000.options, Part000.enabled o <> Some false ->
     Part000.size o = None ->
     forall d, Part000.dir o = Some d -> d <> "" ->
     exists gen so effs, Part000.pinoTransportRotatingFile tz (Some o) = (Resolved (Rotating gen so), effs)
                         /\ so_size so = "100K") /\
  (forall o : Part001.options, Part001.enabled o <> Some false ->
     Part001.size o = None ->
     forall d, Part001.dir o = Some d -> d <> "" ->
     exists gen so effs, Part001.pinoTransportRotatingFile (Some o) = (Resolved (Rotating gen so), effs)
                         /\ so_size so = "100K").
Proof.
  split; intros o Hen Hsz d Hd Hne.
  - unfold Part000.pinoTransportRotatingFile; simpl. rewrite Hsz, Hd.
    destruct (Part000.enabled o) as [[|]|]; [| congruence |];
      (destruct d; [congruence|]); simpl; eauto.
  - unfold Part001.pinoTransportRotatingFile; simpl. rewrite Hsz, Hd.
    destruct (Part001.enabled o) as [[|]|]; [| congruence |];
      (destruct d; [congruence|]); simpl; eauto.
Qed.

(** C1 (index.ts): the transport built with [filename: "server"] names
    the initial file ([time] null) "logs/app.log": the base filename is
    replaced by the literal 'app'. *)
Theorem index_ts_null_time_name :
  match IndexTs.pinoTransportRotatingFile tz (Some (index_opts (Some "logs") (Some "server"))) with
  | (Resolved (Rotating gen _), _) => gen TNull None = Some "logs/app.log"
  | _ => False
  end.
Proof. reflexivity. Qed.

End Construction.

(* ================================================================== *)
(** * The post-rotation compressor and the render stage (part_001) *)

Module CompressorProofs.
Import Part001 StringFacts.

Lemma app_gz_neq (p : string) : p <> p +:+ ".gz".
Proof. intros H. apply (f_equal String.length) in H. rewrite string_app_length in H. simpl in H. lia. Qed.

Lemma compressFile_success gzip w src dest c :
  faults w = no_faults -> fs w !! src = Some (EFile c) -> src <> dest ->
  compressFile gzip src dest w = (set_fs w (delete src (<[dest := EFile (gzip c)]> (fs w))), inr tt).
Proof.
  intros Hf Hs Hne.
  unfold compressFile, fileExists, try_catch, mbind, io_bind, mret, io_ret, access, stat, pipeline_gzip, unlink.
  rewrite Hs; simpl. rewrite ?Hs, ?Hf; simpl. rewrite ?Hs, ?Hf; simpl.
  rewrite lookup_insert_eq; simpl. rewrite Hf; simpl.
  rewrite lookup_insert_ne by congruence. rewrite Hs. reflexivity.
Qed.

(** The ledger does stop a notification that arrives after the first
    compression has finished and added the path. *)
Lemma ledger_blocks_later_duplicate gzip (s : loop_state) (p : string) :
  p ∈ compressedFiles s -> step gzip s (Rotated p) = s.
Proof.
  intros Hin. simpl. destruct (listening s); [|reflexivity].
  unfold on_rotated. rewrite bool_decide_eq_true_2 by exact Hin. reflexivity.
Qed.

(** C2 (code_bug): two 'rotated' notifications for the same path, the
    second arriving before the first listener's [await stat] settles,
    lead to two calls of [compressFile] for that path: the listener adds
    the path to [compressedFiles] only after [await compressFile(...)],
    so the second [compressedFiles.has] check still fails. *)
Theorem duplicate_rotated_compresses_twice gzip :
  attempts (run gzip (initial_loop true w_race) [Rotated p0; Rotated p0; Settle 0; Settle 0])
  = [p0; p0].
Proof. vm_compute. reflexivity. Qed.

(** C3 (counterexample): the gzip pipeline fails after writing one byte
    of output; [compressFile] leaves that partial [.gz] file on disk. *)
Lemma partial_gz_left_behind :
  stage_fails w_pipe_fault p0 /\
  fs w_pipe_fault !! (p0 +:+ ".gz") = None /\
  fs (compressFile gz_stub p0 (p0 +:+ ".gz") w_pipe_fault).1 !! (p0 +:+ ".gz")
  = Some (EFile [Byte.x1f]).
Proof.
  split; [|split; vm_compute; reflexivity].
  split; [eexists; vm_compute; reflexivity|]. right; left. simpl. eexists; reflexivity.
Qed.

(** C3 (amended): when a stage of [compressFile] fails ([stat], the gzip
    pipeline, or [unlink] with a code other than ENOENT), [compressFile]
    still resolves, the source file is as it was, exactly one
    [console.error] line naming the source is logged, and the bytes the
    pipeline wrote before failing stay in [dest]. *)
Theorem compress_failure_keeps_original gzip w src dest :
  src <> dest -> stage_fails w src ->
  let '(w', r) := compressFile gzip src dest w in
  r = inr tt /\ fs w' !! src = fs w !! src /\
  (exists pre e, console w' = console w ++ [ConsoleError (pre +:+ src +:+ ":") (Some e)]) /\
  (forall c n, fs w !! src = Some (EFile c) -> stat_fault (faults w) = None ->
     pipe_fault (faults w) = Some (n, true) ->
     fs w' !! dest = Some (EFile (take n (gzip c)))).
Proof.
  intros Hne [[c Hs] Hfail].
  destruct w as [m cons [sf pf uf]]; simpl in *.
  unfold compressFile, fileExists, try_catch, mbind, io_bind, mret, io_ret, access, stat, pipeline_gzip, unlink, console_error, log, set_fs.
  simpl. rewrite Hs. simpl.
  destruct sf as [sc|]; simpl.
  { rewrite Hs. split; [reflexivity|]. split; [reflexivity|]. split; [eauto|]. intros ? ? _ [=]. }
  rewrite Hs; simpl.
  destruct pf as [[n opened]|]; simpl.
  { rewrite Hs; simpl. destruct opened; simpl.
    - split; [reflexivity|]. split; [rewrite lookup_insert_ne by congruence; exact Hs|].
      split; [eauto|]. intros c' n' Hc _ [= <-]. injection Hc as <-.
      apply lookup_insert_eq.
    - split; [reflexivity|]. split; [exact Hs|]. split; [eauto|]. intros c' n' _ _ [=]. }
  destruct Hfail as [[? [=]]|[[? [=]]|[code [Huf Hcode]]]].
  subst uf. rewrite Hs; simpl. rewrite lookup_insert_eq. simpl.
  destruct (decide (code <> "ENOENT")) as [_|]; [|contradiction]. simpl.
  split; [reflexivity|]. split; [rewrite lookup_insert_ne by congruence; exact Hs|].
  split; [eauto|]. intros ? ? _ _ [=].
Qed.

(** C4: with the listener registered ([compress] true), a 'rotated'
    notification for a regular file [p] not yet in the ledger, with every
    fs call succeeding, ends with [p] removed and [p.gz] holding the gzip
    encoding of its content, which decodes back to that content. *)
Theorem rotated_file_compressed gzip gunzip (Hrt : forall x, gunzip (gzip x) = x)
    (s : loop_state) (p : string) (c : list Byte.byte) :
  listening s = true -> p ∉ compressedFiles s -> pending s = [] ->
  faults (lw s) = no_faults -> fs (lw s) !! p = Some (EFile c) ->
  let s' := run gzip s [Rotated p; Settle 0; Settle 0] in
  fs (lw s') !! p = None /\
  (exists z, fs (lw s') !! (p +:+ ".gz") = Some (EFile z) /\ gunzip z = c) /\
  attempts s' = attempts s ++ [p] /\ p ∈ compressedFiles s' /\ pending s' = [].
Proof.
  intros Hl Hnot Hp Hf Hs. unfold run. simpl.
  rewrite Hl. unfold on_rotated. rewrite bool_decide_eq_false_2 by exact Hnot.
  simpl. rewrite Hp. simpl.
  unfold stat. rewrite Hf. simpl. rewrite Hs. simpl.
  rewrite (compressFile_success gzip (lw s) p (p +:+ ".gz") c Hf Hs (app_gz_neq p)). simpl.
  split; [apply lookup_delete_eq|].
  split; [|split; [reflexivity|split; [set_solver|reflexivity]]].
  exists (gzip c). split; [|apply Hrt].
  rewrite lookup_delete_ne by apply app_gz_neq. apply lookup_insert_eq.
Qed.

Section RenderProofs.
Variable record : Type.
Variable pretty : record -> thrown + string.

Lemma transform_destroyed_stays (s : pipe_state) (rs : list record) :
  destroyed s = true -> foldl (transform record pretty) s rs = s.
Proof.
  intros Hd. induction rs as [|r rs IH]; simpl; [reflexivity|].
  unfold transform at 2. rewrite Hd. exact IH.
Qed.

Lemma transform_rendered (s : pipe_state) (rs : list record) (lines : list string) :
  destroyed s = false -> Forall2 (fun r l => pretty r = inr l) rs lines ->
  foldl (transform record pretty) s rs =
  {| destroyed := false; written := written s ++ lines; transport_log := transport_log s |}.
Proof.
  intros Hd HF. revert s Hd. induction HF as [|r l rs lines Hr HF IH]; intros s Hd; simpl.
  - destruct s; simpl in *; subst; rewrite app_nil_r; reflexivity.
  - unfold transform at 2. rewrite Hd, Hr. rewrite IH by reflexivity. simpl.
    rewrite <- app_assoc. reflexivity.
Qed.

End RenderProofs.

(** C5 (counterexample): the renderer throws on "bad"; the record "ok"
    that follows it renders fine but is never written, and the only trace
    of the failure is the error message, without the record. *)
Lemma render_failure_later_records_dropped :
  pretty_stub "ok" = inr ("ok" +:+ eol) /\
  written (run_pipeline string pretty_stub ["bad"; "ok"]) = [] /\
  destroyed (run_pipeline string pretty_stub ["bad"; "ok"]) = true /\
  transport_log (run_pipeline string pretty_stub ["bad"; "ok"]) = ["Unexpected token b in JSON"].
Proof. repeat split; vm_compute; reflexivity. Qed.

Section RenderProofs000.
Variable record : Type.
Variable pretty : record -> Part000Render.thrown + string.

Lemma render000_destroyed_stays (s : pipe_state) (rs : list record) :
  destroyed s = true -> foldl (Part000Render.transform record pretty) s rs = s.
Proof.
  intros Hd. induction rs as [|r rs IH]; simpl; [reflexivity|].
  unfold Part000Render.transform at 2. rewrite Hd. exact IH.
Qed.

Lemma render000_rendered (s : pipe_state) (rs : list record) (lines : list string) :
  destroyed s = false -> Forall2 (fun r l => pretty r = inr l) rs lines ->
  foldl (Part000Render.transform record pretty) s rs =
  {| destroyed := false; written := written s ++ lines; transport_log := transport_log s |}.
Proof.
  intros Hd HF. revert s Hd. induction HF as [|r l rs lines Hr HF IH]; intros s Hd; simpl.
  - destruct s; simpl in *; subst; rewrite app_nil_r; reflexivity.
  - unfold Part000Render.transform at 2. rewrite Hd, Hr. rewrite IH by reflexivity. simpl.
    rewrite <- app_assoc. reflexivity.
Qed.

End RenderProofs000.

(** C5 (amended): in part_001 and in part_000, the versions whose
    [transform] catches what [pretty] throws, when [pretty] throws on a
    record, the records before it have been passed on towards the
    rotating stream in order, the thrown value, converted to an [Error]
    by each version's own rule, destroys the stage, [pipeline]'s callback
    logs that [Error] once with
    [console.error('Failed to write log in transport:', err)], and neither
    the failing record nor any later record is passed on. *)
Theorem render_failure_tears_down :
  (forall (record : Type) (pretty : record -> thrown + string)
          (pre post : list record) (bad : record) (lines : list string) (e : thrown),
     Forall2 (fun r l => pretty r = inr l) pre lines -> pretty bad = inl e ->
     run_pipeline record pretty (pre ++ bad :: post) =
     {| destroyed := true; written := lines; transport_log := [to_error e] |}) /\
  (forall (record : Type) (pretty : record -> Part000Render.thrown + string)
          (pre post : list record) (bad : record) (lines : list string) (e : Part000Render.thrown),
     Forall2 (fun r l => pretty r = inr l) pre lines -> pretty bad = inl e ->
     Part000Render.run_pipeline record pretty (pre ++ bad :: post) =
     {| destroyed := true; written := lines; transport_log := [Part000Render.to_error e] |}).
Proof.
  split.
  - intros record pretty pre post bad lines e HF Hbad. unfold run_pipeline. rewrite foldl_app.
    rewrite (transform_rendered record pretty pipe_init pre lines eq_refl HF). simpl.
    unfold transform at 2. simpl. rewrite Hbad.
    apply (transform_destroyed_stays record pretty). reflexivity.
  - intros record pretty pre post bad lines e HF Hbad. unfold Part000Render.run_pipeline.
    rewrite foldl_app.
    rewrite (render000_rendered record pretty pipe_init pre lines eq_refl HF). simpl.
    unfold Part000Render.transform at 2. simpl. rewrite Hbad.
    apply (render000_destroyed_stays record pretty). reflexivity.
Qed.

End CompressorProofs.

(* ================================================================== *)
(** * Names of rotated files in part_000 *)

Module NamingProofs.
Import StringFacts.

(** ** The calendar: [civil_from_days] is one-to-one *)

Lemma range_nat_spec (P : Z -> bool) n : forall lo,
  forallb P (range_nat lo n) = true -> forall a, lo <= a < lo + Z.of_nat n -> P a = true.
Proof.
  induction n as [|n IH]; intros lo H a Ha; simpl in *; [lia|].
  apply andb_true_iff in H as [H0 H].
  destruct (Z.eq_dec a lo) as [->|Hne]; [exact H0|].
  apply (IH (lo + 1)); [exact H|lia].
Qed.

Lemma range_spec (P : Z -> bool) lo n :
  forallb P (range lo n) = true -> forall a, lo <= a < lo + n -> P a = true.
Proof.
  unfold range. intros H a Ha. apply (range_nat_spec P _ lo H). lia.
Qed.

Lemma doe_check_all : forallb doe_check (range 0 146097) = true.
Proof. vm_compute. reflexivity. Qed.

Lemma pad_check_all : forallb pad_check (range 1 31) = true.
Proof. vm_compute. reflexivity. Qed.

Lemma doe_parts_spec doe : 0 <= doe < 146097 ->
  let '(yoe, m, d) := doe_parts doe in
  0 <= yoe < 400 /\ 1 <= m <= 12 /\ 1 <= d <= 31 /\ doe_of yoe m d = doe.
Proof.
  intros Hd. pose proof (range_spec _ _ _ doe_check_all doe ltac:(lia)) as H.
  unfold doe_check in H. destruct (doe_parts doe) as [[yoe m] d].
  repeat rewrite andb_true_iff in H. rewrite !Z.leb_le, !Z.ltb_lt, Z.eqb_eq in H. lia.
Qed.

Lemma civil_from_days_spec z :
  let '(y, m, d) := civil_from_days z in
  1 <= m <= 12 /\ 1 <= d <= 31 /\ days_from_civil (y, m, d) = z.
Proof.
  unfold civil_from_days.
  set (era := (z + 719468) / 146097).
  set (doe := z + 719468 - era * 146097).
  assert (Hd : 0 <= doe < 146097).
  { pose proof (Z.div_mod (z + 719468) 146097 ltac:(lia)).
    pose proof (Z.mod_pos_bound (z + 719468) 146097 ltac:(lia)).
    unfold doe, era. lia. }
  pose proof (doe_parts_spec doe Hd) as Hp.
  destruct (doe_parts doe) as [[yoe m] d].
  destruct Hp as (Hy & Hm & Hdd & Hof).
  split; [lia|]. split; [lia|].
  unfold days_from_civil.
  assert (Hy' : (if m <=? 2 then (if m <=? 2 then yoe + era * 400 + 1 else yoe + era * 400) - 1
                 else (if m <=? 2 then yoe + era * 400 + 1 else yoe + era * 400)) = yoe + era * 400).
  { destruct (m <=? 2); lia. }
  rewrite Hy'.
  assert (He : (yoe + era * 400) / 400 = era).
  { rewrite Z.div_add by lia. rewrite Z.div_small by lia. lia. }
  rewrite He.
  replace (yoe + era * 400 - era * 400) with yoe by lia.
  rewrite Hof. unfold doe. lia.
Qed.

Lemma civil_from_days_inj z1 z2 : civil_from_days z1 = civil_from_days z2 -> z1 = z2.
Proof.
  intros E. pose proof (civil_from_days_spec z1) as H1. pose proof (civil_from_days_spec z2) as H2.
  rewrite E in H1. destruct (civil_from_days z2) as [[y m] d].
  destruct H1 as (_ & _ & H1). destruct H2 as (_ & _ & H2). congruence.
Qed.

(** ** [path.join] keeps a slash-free tail *)

Lemma segments_no_slash (x : string) : no_slash x = true -> segments x = [x].
Proof.
  induction x as [|c x IH]; simpl; [auto|].
  intros H. apply andb_true_iff in H as [Hc H].
  destruct (ascii_dec c slash) as [->|_]; [done|]. rewrite IH by done. done.
Qed.

Lemma segments_app (q : string) : exists init l,
  segments q = init ++ [l] /\
  forall x, no_slash x = true -> segments (q +:+ x) = init ++ [l +:+ x].
Proof.
  induction q as [|c q IH].
  - exists [], "". split; [done|]. intros x Hx. apply segments_no_slash, Hx.
  - destruct IH as (init & l & Hq & Hx). simpl.
    destruct (ascii_dec c slash).
    + exists ("" :: init), l. rewrite Hq. split; [done|].
      intros x Hs. rewrite Hx by done. done.
    + rewrite Hq. destruct init as [|i0 init]; simpl.
      * exists [], (String c l). split; [done|]. intros x Hs. rewrite Hx by done. done.
      * exists (String c i0 :: init), l. split; [done|]. intros x Hs. rewrite Hx by done. done.
Qed.

Lemma concat_snoc (r : list string) : exists pre, forall l,
  String.concat "/" (r ++ [l]) = pre +:+ l.
Proof.
  induction r as [|a r IH].
  - exists "". done.
  - destruct IH as [pre Hpre]. destruct r as [|b r].
    + exists (a +:+ "/"). intros l. simpl. rewrite string_app_assoc. done.
    + exists (a +:+ "/" +:+ pre). intros l.
      transitivity (a +:+ "/" +:+ String.concat "/" ((b :: r) ++ [l])); [reflexivity|].
      rewrite Hpre, !string_app_assoc. done.
Qed.

Lemma last_char_app (q x : string) : x <> "" -> last_char (q +:+ x) = last_char x.
Proof.
  intros Hx. induction q as [|c q IH]; simpl; [done|].
  rewrite IH. destruct q; simpl; [destruct x; done|]. done.
Qed.

Lemma no_slash_last (x : string) : no_slash x = true -> last_char x <> Some slash.
Proof.
  induction x as [|c x IH]; simpl; [done|].
  intros H. apply andb_true_iff in H as [Hc H].
  destruct x; [|apply IH; done].
  intros [= ->]. revert Hc. rewrite bool_decide_true by done. done.
Qed.

Lemma no_slash_first (x : string) : no_slash x = true -> first_char x <> Some slash.
Proof.
  destruct x as [|c x]; simpl; [done|].
  intros H. apply andb_true_iff in H as [Hc H].
  intros [= ->]. revert Hc. rewrite bool_decide_true by done. done.
Qed.

Lemma norm_step_push ab (stack : list string) (seg : string) :
  (3 <= String.length seg)%nat -> norm_step ab stack seg = seg :: stack.
Proof.
  intros Hl. unfold norm_step.
  rewrite !decide_False; [done|..]; intros ->; simpl in Hl; lia.
Qed.

Lemma normalize_app (q : string) : exists a, forall x,
  no_slash x = true -> (3 <= String.length x)%nat ->
  normalize (q +:+ x) = a +:+ x.
Proof.
  destruct (segments_app q) as (init & l & _ & Hseg).
  set (abs := match q with EmptyString => false | _ => bool_decide (first_char q = Some slash) end).
  destruct (concat_snoc (reverse (foldl (norm_step (negb abs)) [] init))) as [pre Hpre].
  exists ((if abs then "/" else "") +:+ pre +:+ l). intros x Hx Hlen.
  assert (Hne : x <> "") by (intros ->; simpl in Hlen; lia).
  assert (Hlx : (3 <= String.length (l +:+ x))%nat) by (rewrite string_app_length; lia).
  unfold normalize.
  rewrite decide_False by (intros E; apply (f_equal String.length) in E;
    rewrite string_app_length in E; simpl in E; lia).
  assert (Habs : bool_decide (first_char (q +:+ x) = Some slash) = abs).
  { unfold abs. destruct q; simpl; [|done].
    apply bool_decide_eq_false_2, no_slash_first, Hx. }
  rewrite Habs.
  rewrite (bool_decide_eq_false_2 (last_char (q +:+ x) = Some slash))
    by (rewrite last_char_app by done; apply no_slash_last, Hx).
  unfold normalize_string. rewrite Hseg by done.
  rewrite foldl_app. simpl.
  rewrite norm_step_push by done.
  rewrite reverse_cons, Hpre.
  rewrite decide_False by (intros E; apply (f_equal String.length) in E;
    rewrite !string_app_length in E; simpl in E; lia).
  destruct abs; simpl; rewrite ?string_app_assoc; done.
Qed.

Lemma path_join_app (dir f : string) : exists a, forall x,
  no_slash x = true -> (3 <= String.length x)%nat ->
  path_join dir (f +:+ x) = a +:+ x.
Proof.
  destruct dir as [|c dir].
  - destruct (normalize_app f) as [a Ha]. exists a. intros x Hx Hl.
    unfold path_join. destruct (f +:+ x) eqn:E.
    + apply (f_equal String.length) in E. rewrite string_app_length in E. simpl in E. lia.
    + rewrite <- E. apply Ha; done.
  - destruct (normalize_app (String c dir +:+ "/" +:+ f)) as [a Ha]. exists a. intros x Hx Hl.
    unfold path_join. destruct (f +:+ x) eqn:E.
    + apply (f_equal String.length) in E. rewrite string_app_length in E. simpl in E. lia.
    + rewrite <- E. rewrite <- Ha by done. rewrite !string_app_assoc. done.
Qed.

(** ** The date token *)

Lemma no_slash_app (a b : string) : no_slash (a +:+ b) = no_slash a && no_slash b.
Proof. induction a as [|ch a IH]; [done|]. rewrite string_app_cons. simpl. rewrite IH, andb_assoc. done. Qed.

Lemma no_slash_num_to_string (n : js_number) : no_slash (num_to_string n) = true.
Proof.
  destruct n as [z|]; [|done]. simpl. unfold NilEmpty.string_of_int.
  assert (Hu : forall u, no_slash (NilEmpty.string_of_uint u) = true) by (induction u; simpl; auto).
  destruct (Z.to_int z); simpl; auto.
Qed.

Lemma num_to_string_inj (a b : Z) : num_to_string (Some a) = num_to_string (Some b) -> a = b.
Proof.
  simpl. intros E. apply DecimalZ.to_int_inj.
  pose proof (NilEmpty.isi (Z.to_int a)) as Ha. pose proof (NilEmpty.isi (Z.to_int b)) as Hb.
  rewrite E in Ha. congruence.
Qed.

Lemma pad_day (a : Z) : 1 <= a <= 31 ->
  String.length (pad (Some a)) = 2%nat /\ no_slash (pad (Some a)) = true /\
  forall b, 1 <= b <= 31 -> pad (Some a) = pad (Some b) -> a = b.
Proof.
  intros Ha. pose proof (range_spec _ _ _ pad_check_all a ltac:(lia)) as H.
  unfold pad_check in H. apply andb_true_iff in H as [Hl H].
  split; [apply Nat.eqb_eq, Hl|]. split.
  { unfold pad, pad_start. rewrite no_slash_app, no_slash_num_to_string, andb_true_r.
    generalize (2 - String.length (num_to_string (Some a)))%nat as k.
    induction k as [|k IH]; [done|]. simpl. exact IH. }
  intros b Hb E. pose proof (range_spec _ _ _ H b ltac:(lia)) as Hab.
  rewrite E, bool_decide_true in Hab by done. simpl in Hab. apply Z.eqb_eq, Hab.
Qed.

Lemma date_token_some tz t : Part000.date_token tz (Some t) =
  let '(y, m, d) := local_ymd tz t in
  num_to_string (Some y) +:+ "-" +:+ pad (Some m) +:+ "-" +:+ pad (Some d).
Proof.
  unfold Part000.date_token, get_full_year, get_month, get_date, js_add. simpl.
  destruct (local_ymd tz t) as [[y m] d]. simpl. rewrite Z.sub_add. done.
Qed.

Lemma local_ymd_range tz t : let '(_, m, d) := local_ymd tz t in 1 <= m <= 12 /\ 1 <= d <= 31.
Proof.
  unfold local_ymd. pose proof (civil_from_days_spec (local_time tz t / ms_per_day)) as H.
  destruct (civil_from_days _) as [[y m] d]. lia.
Qed.

Lemma date_token_props tz t :
  (6 <= String.length (Part000.date_token tz (Some t)))%nat /\ no_slash (Part000.date_token tz (Some t)) = true.
Proof.
  rewrite date_token_some. pose proof (local_ymd_range tz t) as Hr.
  destruct (local_ymd tz t) as [[y m] d].
  destruct (pad_day m ltac:(lia)) as (Hm & Hms & _). destruct (pad_day d ltac:(lia)) as (Hd & Hds & _).
  rewrite !string_app_length, !no_slash_app, Hm, Hd, Hms, Hds, no_slash_num_to_string. simpl. split; [lia|done].
Qed.

Lemma date_token_inj tz t1 t2 :
  Part000.date_token tz (Some t1) = Part000.date_token tz (Some t2) -> local_ymd tz t1 = local_ymd tz t2.
Proof.
  rewrite !date_token_some. pose proof (local_ymd_range tz t1) as R1. pose proof (local_ymd_range tz t2) as R2.
  destruct (local_ymd tz t1) as [[y1 m1] d1], (local_ymd tz t2) as [[y2 m2] d2].
  destruct (pad_day m1 ltac:(lia)) as (Hm1 & _ & Im). destruct (pad_day d1 ltac:(lia)) as (Hd1 & _ & Id).
  destruct (pad_day m2 ltac:(lia)) as (Hm2 & _ & _). destruct (pad_day d2 ltac:(lia)) as (Hd2 & _ & _).
  intros E.
  assert (Hl : String.length (num_to_string (Some y1)) = String.length (num_to_string (Some y2))).
  { apply (f_equal String.length) in E. rewrite !string_app_length, Hm1, Hm2, Hd1, Hd2 in E. change (String.length "-") with 1%nat in E. lia. }
  destruct (string_app_inj _ _ _ _ Hl E) as [Ey E1].
  rewrite !string_app_cons in E1. injection E1 as E1.
  destruct (string_app_inj _ _ _ _ (eq_trans Hm1 (eq_sym Hm2)) E1) as [Em E2].
  injection E2 as Ed.
  apply num_to_string_inj in Ey. apply Im in Em; [|lia]. apply Id in Ed; [|lia]. congruence.
Qed.

Lemma local_ymd_inj tz t1 t2 :
  local_ymd tz t1 = local_ymd tz t2 <-> local_time tz t1 / ms_per_day = local_time tz t2 / ms_per_day.
Proof.
  unfold local_ymd. split; [apply civil_from_days_inj|congruence].
Qed.

Lemma index_no_slash (index : option Z) : no_slash (index_to_string index) = true.
Proof. destruct index; [apply no_slash_num_to_string|done]. Qed.

(** ** The generated names *)

(** C9 (counterexample): with an hourly interval, 10:00 and 11:00 UTC on
    2024-01-01 lie in different interval buckets, yet the part_000
    generator gives both the same name at index 1. *)
Lemma part000_same_day_same_name :
  Part000.generator utc (TDate (Some t_10h)) (Some 1) "logs" "app"
  = Part000.generator utc (TDate (Some t_11h)) (Some 1) "logs" "app" /\
  t_10h / ms_per_hour <> t_11h / ms_per_hour.
Proof. split; vm_compute; [reflexivity | intros E; discriminate E]. Qed.

(** For truthy times with valid time values [t1] and [t2], the part_000
    generator gives the same name for a given index, directory and
    filename exactly when [t1] and [t2] fall on the same local calendar
    day. *)
Lemma part000_names_same_day_iff tz time1 time2 t1 t2 index dir filename
  (H1 : falsy time1 = false) (H2 : falsy time2 = false)
  (Ht1 : new_date time1 = Some t1) (Ht2 : new_date time2 = Some t2) :
  Part000.generator tz time1 index dir filename = Part000.generator tz time2 index dir filename
  <-> local_time tz t1 / ms_per_day = local_time tz t2 / ms_per_day.
Proof.
  rewrite <- local_ymd_inj. unfold Part000.generator. rewrite H1, H2, Ht1, Ht2.
  destruct (path_join_app dir filename) as [a Ha].
  destruct (date_token_props tz t1) as [L1 N1]. destruct (date_token_props tz t2) as [L2 N2].
  pose proof (index_no_slash index) as Ni.
  assert (HX : forall tok, no_slash tok = true ->
    no_slash ("-" +:+ tok +:+ "." +:+ index_to_string index +:+ ".log") = true /\
    (3 <= String.length ("-" +:+ tok +:+ "." +:+ index_to_string index +:+ ".log"))%nat).
  { intros tok Nt. rewrite string_app_cons. cbn [String.length no_slash].
    rewrite !string_app_length, !no_slash_app, Nt, Ni. split; [done|].
    change (String.length ".log") with 4%nat. lia. }
  destruct (HX _ N1) as [X1 Y1]. destruct (HX _ N2) as [X2 Y2].
  rewrite (Ha _ X1 Y1), (Ha _ X2 Y2).
  split.
  - intros E. apply string_app_cancel_l, string_app_cancel_l in E.
    apply string_app_cancel_r in E. apply date_token_inj, E.
  - intros E. f_equal. f_equal. f_equal. rewrite !date_token_some, E. done.
Qed.


End NamingProofs.

(* ================================================================== *)
(** * The compressor and the 'rotated' listener (part_001): more properties *)

Module ListenerProofs.
Import Part001.

(** [fileExists] never rejects, leaves the world unchanged and resolves
    to whether the path is present. *)
Lemma fileExists_spec (p : string) (w : world) :
  fileExists p w = (w, inr (bool_decide (is_Some (fs w !! p)))).
Proof.
  unfold fileExists, try_catch, mbind, io_bind, mret, io_ret, access.
  destruct (fs w !! p) eqn:E; reflexivity.
Qed.

(** [compressFile] never rejects: on every path its promise resolves. *)
Lemma compressFile_resolves gzip (src dest : string) (w : world) :
  (compressFile gzip src dest w).2 = inr tt.
Proof.
  unfold compressFile. unfold try_catch at 1.
  match goal with |- (match ?m with _ => _ end).2 = _ => destruct m as [w' [e|[]]] end; reflexivity.
Qed.

Ltac io_split :=
  repeat (simpl; match goal with
  | |- context [ (<[?k:=?v]> ?m) !! ?k ] => rewrite lookup_insert_eq
  | |- context [ (<[?k:=?v]> ?m) !! ?j ] =>
      destruct (decide (k = j)) as [<-|?]; [rewrite lookup_insert_eq | rewrite lookup_insert_ne by done]
  | |- context [match ?x with _ => _ end] =>
      lazymatch x with
      | context [match _ with _ => _ end] => fail
      | _ => let E := fresh "E" in destruct x eqn:E
      end
  end).

(** [compressFile] touches no file but [src] and [dest], keeps the fault
    plan and appends at most one console line. *)
Lemma compressFile_frame gzip (src dest : string) (w : world) :
  frame src dest 1 w (compressFile gzip src dest w).1.
Proof.
  unfold frame, compressFile, fileExists, access, stat, pipeline_gzip, unlink, console_warn,
    console_error, try_catch, mbind, io_bind, mret, io_ret, log, set_fs.
  io_split.
  all: try (split; [intros q Hq1 Hq2; simpl; repeat ((rewrite lookup_delete_ne by congruence) || (rewrite lookup_insert_ne by congruence)); reflexivity|]).
  all: try (split; [reflexivity|]); simpl.
  all: try (exists []; rewrite app_nil_r; split; [reflexivity|simpl; lia]).
  all: try (eexists; split; [reflexivity|simpl; lia]).
Qed.

(** A missing source, or a source that is a directory, is skipped with
    one warning and no change to the files. *)
Lemma compressFile_skips gzip (src dest : string) (w : world) :
  (fs w !! src = None ->
   compressFile gzip src dest w
   = (log w (ConsoleWarn ("Skipping compression, file does not exist: " +:+ src)), inr tt)) /\
  (fs w !! src = Some EDir -> stat_fault (faults w) = None ->
   compressFile gzip src dest w
   = (log w (ConsoleWarn ("Skipping compression, source is a directory: " +:+ src)), inr tt)).
Proof.
  split.
  - intros Hs. unfold compressFile, fileExists, access, try_catch, mbind, io_bind, mret, io_ret, console_warn.
    rewrite Hs. reflexivity.
  - intros Hs Hf. unfold compressFile, fileExists, access, stat, try_catch, mbind, io_bind, mret, io_ret, console_warn.
    rewrite Hs. simpl. rewrite Hf, Hs. reflexivity.
Qed.

(** An [unlink] that rejects with ENOENT is ignored: the archive stays,
    nothing is logged. *)
Lemma compressFile_unlink_enoent_silent gzip (src dest : string) (w : world) c :
  faults w = {| stat_fault := None; pipe_fault := None; unlink_fault := Some "ENOENT" |} ->
  fs w !! src = Some (EFile c) ->
  compressFile gzip src dest w = (set_fs w (<[dest := EFile (gzip c)]> (fs w)), inr tt).
Proof.
  intros Hf Hs.
  unfold compressFile, fileExists, access, stat, pipeline_gzip, unlink, try_catch, mbind, io_bind, mret, io_ret.
  rewrite Hs; simpl. rewrite ?Hs, ?Hf; simpl. rewrite ?Hs, ?Hf; simpl.
  rewrite lookup_insert_eq; simpl. rewrite Hf; simpl. reflexivity.
Qed.


Lemma run_cons gzip (s : loop_state) (ev : event) (evs : list event) :
  run gzip s (ev :: evs) = run gzip (step gzip s ev) evs.
Proof. reflexivity. Qed.

Lemma stat_world (p : string) (w : world) : (stat p w).1 = w.
Proof. unfold stat. destruct (stat_fault (faults w)), (fs w !! p); reflexivity. Qed.

(** A file rotated twice, the second event after the first compression
    settled, is compressed once. *)
Lemma sequential_duplicate_compressed_once gzip (w : world) (p : string) c :
  faults w = no_faults -> fs w !! p = Some (EFile c) ->
  let s := run gzip (initial_loop true w)
             [Rotated p; Settle 0; Settle 0; Rotated p; Settle 0; Settle 0] in
  attempts s = [p] /\ compressedFiles s = {[p]} /\ pending s = [] /\
  lw s = set_fs w (delete p (<[p +:+ ".gz" := EFile (gzip c)]> (fs w))).
Proof.
  intros Hf Hs. unfold run. simpl.
  unfold on_rotated, with_world; simpl.
  rewrite bool_decide_false by set_solver. simpl.
  unfold stat. rewrite Hf; simpl. rewrite Hs; simpl.
  rewrite (CompressorProofs.compressFile_success gzip w p (p +:+ ".gz") c Hf Hs (CompressorProofs.app_gz_neq p)). simpl.
  rewrite bool_decide_true by set_solver. simpl.
  split_and!; try reflexivity. set_solver.
Qed.

(** A rotated path whose [stat] rejects, whatever the code (among them
    ENOENT for a path that is gone), or that is a directory, is not
    compressed and not recorded; one console line is written. *)
Lemma listener_no_compress_on_stat_error_or_dir gzip (w : world) (p : string) :
  (forall c, (stat p w).2 = inl {| code := c |} ->
   let s := run gzip (initial_loop true w) [Rotated p; Settle 0] in
   attempts s = [] /\ compressedFiles s = ∅ /\ pending s = [] /\
   lw s = log w (ConsoleError ("Error compressing rotated file " +:+ p +:+ ":") (Some {| code := c |}))) /\
  (stat_fault (faults w) = None -> fs w !! p = None ->
   let s := run gzip (initial_loop true w) [Rotated p; Settle 0] in
   attempts s = [] /\ compressedFiles s = ∅ /\ pending s = [] /\
   lw s = log w (ConsoleError ("Error compressing rotated file " +:+ p +:+ ":") (Some {| code := "ENOENT" |}))) /\
  (stat_fault (faults w) = None -> fs w !! p = Some EDir ->
   let s := run gzip (initial_loop true w) [Rotated p; Settle 0] in
   attempts s = [] /\ compressedFiles s = ∅ /\ pending s = [] /\
   lw s = log w (ConsoleWarn ("Skipping compression, rotated file is a directory: " +:+ p))).
Proof.
  assert (Hrej : forall c, (stat p w).2 = inl {| code := c |} ->
   let s := run gzip (initial_loop true w) [Rotated p; Settle 0] in
   attempts s = [] /\ compressedFiles s = ∅ /\ pending s = [] /\
   lw s = log w (ConsoleError ("Error compressing rotated file " +:+ p +:+ ":") (Some {| code := c |}))).
  { intros c Hc. assert (E : stat p w = (w, inl {| code := c |})).
    { pose proof (stat_world p w) as Hw. destruct (stat p w) as [w' r].
      simpl in Hw, Hc. subst. reflexivity. }
    unfold run. simpl. unfold on_rotated, with_world; simpl.
    rewrite bool_decide_false by set_solver. simpl. rewrite E. simpl.
    split_and!; reflexivity. }
  split_and!.
  - exact Hrej.
  - intros Hc Hn. apply Hrej. unfold stat. rewrite Hc, Hn. reflexivity.
  - intros Hc Hd. unfold run. simpl. unfold on_rotated, with_world; simpl.
    rewrite bool_decide_false by set_solver. simpl. unfold stat. rewrite Hc, Hd. simpl.
    split_and!; reflexivity.
Qed.


End ListenerProofs.

(* ================================================================== *)
(** * The generated names: more properties *)

Module NameProofs.
Import StringFacts NamingProofs.

Lemma no_slash_pad_start (s : string) (n : nat) :
  no_slash s = true -> no_slash (pad_start s n "0") = true.
Proof.
  intros Hs. unfold pad_start. rewrite no_slash_app, Hs, andb_true_r.
  generalize (n - String.length s)%nat as k. induction k as [|k IH]; [done|]. exact IH.
Qed.

Lemma no_slash_pad (n : js_number) : no_slash (pad n) = true.
Proof. apply no_slash_pad_start, no_slash_num_to_string. Qed.

Lemma no_slash_date_token tz tv : no_slash (Part000.date_token tz tv) = true.
Proof.
  unfold Part000.date_token. rewrite !no_slash_app, !no_slash_pad, no_slash_num_to_string. done.
Qed.

(** The tail of a dated part_000 name after the filename. *)
Lemma part000_dated_tail tz tv index :
  no_slash ("-" +:+ Part000.date_token tz tv +:+ "." +:+ index_to_string index +:+ ".log") = true /\
  (3 <= String.length ("-" +:+ Part000.date_token tz tv +:+ "." +:+ index_to_string index +:+ ".log"))%nat.
Proof.
  rewrite string_app_cons. cbn [String.length no_slash].
  rewrite !string_app_length, !no_slash_app, no_slash_date_token, index_no_slash. split; [done|].
  change (String.length ".log") with 4%nat. lia.
Qed.

(** A dated part_000 name never equals the name of the active file. *)
Lemma part000_rotated_not_active tz time index index' dir filename :
  falsy time = false ->
  Part000.generator tz time index dir filename <> Part000.generator tz TNull index' dir filename.
Proof.
  intros Ht. unfold Part000.generator. rewrite Ht. simpl.
  destruct (path_join_app dir filename) as [a Ha].
  destruct (part000_dated_tail tz (new_date time) index) as [N L].
  rewrite (Ha _ N L), (Ha ".log") by (reflexivity || (simpl; lia)).
  intros E. apply string_app_cancel_l in E. discriminate E.
Qed.

(** index.ts names the files as part_000 does for a [Date]; it names the
    active file [app.log] whatever the [filename] option; and its
    generator throws exactly on a truthy number, which has no
    [getFullYear]. *)
Lemma index_ts_generator_vs_part000 tz dir filename :
  (forall tv index, IndexTs.generator tz dir filename (TDate tv) index
                    = Some (Part000.generator tz (TDate tv) index dir filename)) /\
  (forall time index, falsy time = true ->
     IndexTs.generator tz dir filename time index = Some (path_join dir "app.log")) /\
  (forall time index, IndexTs.generator tz dir filename time index = None
     <-> exists n, time = TNumber n /\ falsy time = false).
Proof.
  split_and!.
  - reflexivity.
  - intros time index Ht. unfold IndexTs.generator. rewrite Ht. reflexivity.
  - intros time index. unfold IndexTs.generator.
    destruct (falsy time) eqn:Ht.
    + split; [discriminate|]. intros (n & _ & Hn). discriminate Hn.
    + destruct time as [|n|tv]; simpl in Ht; [discriminate| |].
      * split; [intros _; exists n; split; reflexivity|reflexivity].
      * split; [discriminate|]. intros (n & Hn & _). discriminate Hn.
Qed.

(** On an invalid date part_000 names the file with NaN for the year,
    month and day; part_001's [toISOString] throws. *)
Lemma invalid_date_names tz time index dir filename :
  falsy time = false -> new_date time = None ->
  Part000.generator tz time index dir filename
  = path_join dir (filename +:+ "-NaN-NaN-NaN." +:+ index_to_string index +:+ ".log") /\
  Part001.generator time dir filename = None.
Proof.
  intros Ht Hd. unfold Part000.generator, Part001.generator. rewrite Ht, Hd. split; reflexivity.
Qed.

(** part_001's generator throws exactly on a truthy time that is an
    invalid date. *)
Lemma part001_generator_throws_iff time dir filename :
  Part001.generator time dir filename = None <-> falsy time = false /\ new_date time = None.
Proof.
  unfold Part001.generator. destruct (falsy time); [split; [discriminate|intros [? ?]; discriminate]|].
  destruct (new_date time) as [t|]; simpl.
  - destruct (civil_from_days (t / ms_per_day)) as [[y m] d]. split; [discriminate|intros [? ?]; discriminate].
  - split; [done|reflexivity].
Qed.

Lemma no_dot_app (a b : string) : no_dot (a +:+ b) = no_dot a && no_dot b.
Proof. induction a as [|ch a IH]; [done|]. rewrite string_app_cons. simpl. rewrite IH, andb_assoc. done. Qed.

Lemma no_dot_num_to_string (n : js_number) : no_dot (num_to_string n) = true.
Proof.
  destruct n as [z|]; [|done]. simpl. unfold NilEmpty.string_of_int.
  assert (Hu : forall u, no_dot (NilEmpty.string_of_uint u) = true) by (induction u; simpl; auto).
  destruct (Z.to_int z); simpl; auto.
Qed.

Lemma no_dot_pad (n : js_number) : no_dot (pad n) = true.
Proof.
  unfold pad, pad_start. rewrite no_dot_app, no_dot_num_to_string, andb_true_r.
  generalize (2 - String.length (num_to_string n))%nat as k. induction k as [|k IH]; [done|]. exact IH.
Qed.

Lemma no_dot_date_token tz tv : no_dot (Part000.date_token tz tv) = true.
Proof. unfold Part000.date_token. rewrite !no_dot_app, !no_dot_pad, no_dot_num_to_string. done. Qed.

Lemma split_at_dot (a b s t : string) :
  no_dot a = true -> no_dot b = true -> a +:+ "." +:+ s = b +:+ "." +:+ t -> a = b /\ s = t.
Proof.
  revert b. induction a as [|c a IH]; intros [|c' b] Ha Hb E.
  - split; [done|]. injection E as E. exact E.
  - exfalso. rewrite string_app_nil_l, string_app_cons in E. injection E as E1 _. subst c'.
    simpl in Hb. discriminate Hb.
  - exfalso. rewrite string_app_nil_l, string_app_cons in E. injection E as E1 _. subst c.
    simpl in Ha. discriminate Ha.
  - rewrite !string_app_cons in E. injection E as -> E.
    simpl in Ha, Hb. apply andb_true_iff in Ha as [_ Ha]. apply andb_true_iff in Hb as [_ Hb].
    destruct (IH b Ha Hb E) as [-> ->]. done.
Qed.

Lemma index_to_string_inj (i j : option Z) : index_to_string i = index_to_string j -> i = j.
Proof.
  assert (Hu : forall z, num_to_string (Some z) <> "undefined").
  { intros z E. pose proof (NilEmpty.isi (Z.to_int z)) as H. simpl in E. rewrite E in H. discriminate H. }
  destruct i as [a|], j as [b|]; simpl; intros E.
  - f_equal. apply num_to_string_inj, E.
  - exfalso. apply (Hu a), E.
  - exfalso. apply (Hu b). symmetry. exact E.
  - reflexivity.
Qed.

(** Two dated part_000 names are equal exactly when the local days and
    the indexes are equal. *)
Lemma part000_names_eq_iff tz time1 time2 t1 t2 index1 index2 dir filename
  (H1 : falsy time1 = false) (H2 : falsy time2 = false)
  (Ht1 : new_date time1 = Some t1) (Ht2 : new_date time2 = Some t2) :
  Part000.generator tz time1 index1 dir filename = Part000.generator tz time2 index2 dir filename
  <-> local_time tz t1 / ms_per_day = local_time tz t2 / ms_per_day /\ index1 = index2.
Proof.
  rewrite <- local_ymd_inj. unfold Part000.generator. rewrite H1, H2, Ht1, Ht2.
  destruct (path_join_app dir filename) as [a Ha].
  destruct (part000_dated_tail tz (Some t1) index1) as [N1 L1].
  destruct (part000_dated_tail tz (Some t2) index2) as [N2 L2].
  rewrite (Ha _ N1 L1), (Ha _ N2 L2).
  split.
  - intros E. apply string_app_cancel_l, string_app_cancel_l in E.
    destruct (split_at_dot _ _ _ _ (no_dot_date_token tz (Some t1)) (no_dot_date_token tz (Some t2)) E)
      as [Et Ei].
    split; [apply date_token_inj, Et|].
    apply index_to_string_inj, (string_app_cancel_r _ _ ".log"), Ei.
  - intros [E ->]. rewrite !date_token_some, E. reflexivity.
Qed.


Lemma pad4_check_all : forallb (pad_width_check 4) (range 0 10000) = true.
Proof. vm_compute. reflexivity. Qed.
Lemma pad2_check_all : forallb (pad_width_check 2) (range 0 60) = true.
Proof. vm_compute. reflexivity. Qed.

Lemma pad_width_spec w lo n z :
  forallb (pad_width_check w) (range lo n) = true -> lo <= z < lo + n ->
  let s := pad_start (num_to_string (Some z)) w "0" in
  String.length s = w /\ digits_val 0 s = z /\ Part001.strip_iso_separators s = s /\ no_dot s = true.
Proof.
  intros H Hz. pose proof (range_spec _ _ _ H z Hz) as Hc. unfold pad_width_check in Hc.
  repeat rewrite andb_true_iff in Hc. destruct Hc as [[[Hl Hv] Hs] Hd].
  apply Nat.eqb_eq in Hl. apply Z.eqb_eq in Hv. apply bool_decide_eq_true in Hs. done.
Qed.

Lemma strip_app (a b : string) :
  Part001.strip_iso_separators (a +:+ b) = Part001.strip_iso_separators a +:+ Part001.strip_iso_separators b.
Proof.
  induction a as [|c a IH]; [done|]. rewrite string_app_cons. simpl.
  destruct (decide _); rewrite IH; done.
Qed.

Lemma before_first_dot_app (a b : string) :
  no_dot a = true -> Part001.before_first_dot (a +:+ "." +:+ b) = a.
Proof.
  induction a as [|c a IH]; intros H; [done|]. rewrite string_app_cons. simpl in *.
  apply andb_true_iff in H as [Hc H]. destruct (decide (c = "."%char)) as [->|_]; [discriminate Hc|].
  rewrite IH by done. done.
Qed.

Lemma string_app_nil_r (a : string) : a +:+ "" = a.
Proof. induction a as [|ch a IH]; [done|]. rewrite string_app_cons, IH. done. Qed.

Lemma before_first_dot_prefix (a s : string) :
  no_dot a = true -> Part001.before_first_dot (a +:+ s) = a +:+ Part001.before_first_dot s.
Proof.
  induction a as [|c a IH]; intros H; [done|]. rewrite !string_app_cons. simpl in *.
  apply andb_true_iff in H as [Hc H]. destruct (decide (c = "."%char)) as [->|_]; [discriminate Hc|].
  rewrite IH by done. done.
Qed.

Lemma ms_parts t :
  let ms := t mod ms_per_day in
  let u := (t / 1000) mod 86400 in
  t / ms_per_day = (t / 1000) / 86400 /\
  ms / 3600000 = u / 3600 /\ ms / 60000 mod 60 = u / 60 mod 60 /\ ms / 1000 mod 60 = u mod 60.
Proof.
  intros ms u.
  assert (Hu : ms / 1000 = u).
  { unfold ms, u, ms_per_day. change 86400000 with (1000 * 86400).
    rewrite Z.rem_mul_r by lia.
    rewrite Z.add_comm, Z.mul_comm, Z.div_add_l by lia.
    rewrite (Z.div_small (t mod 1000) 1000) by (apply Z.mod_pos_bound; lia). lia. }
  split; [unfold ms_per_day; rewrite Z.div_div by lia; reflexivity|].
  rewrite <- Hu. split; [|split].
  - rewrite Z.div_div by lia. reflexivity.
  - rewrite Z.div_div by lia. reflexivity.
  - reflexivity.
Qed.

(** The timestamp of a part_001 name is [YYYYMMDDhhmmss] of the UTC
    second, for the years 0..9999. *)
Lemma part001_timestamp t :
  0 <= (civil_from_days (t / ms_per_day)).1.1 <= 9999 ->
  option_map (fun iso => Part001.before_first_dot (Part001.strip_iso_separators iso))
    (Part001.to_iso_string (Some t)) = Some (iso_compact (t / 1000)).
Proof.
  intros Hy. destruct (ms_parts t) as (HD & Hh & Hm & Hs).
  unfold Part001.to_iso_string, iso_compact.
  rewrite Hh, Hm, Hs, <- HD.
  pose proof (civil_from_days_spec (t / ms_per_day)) as Hc.
  destruct (civil_from_days (t / ms_per_day)) as [[y m] d]. simpl in Hy.
  destruct Hc as (Hmr & Hdr & _).
  assert (Hb : (0 <=? y) && (y <=? 9999) = true) by (apply andb_true_iff; split; apply Z.leb_le; lia).
  rewrite Hb. simpl option_map. f_equal.
  set (u := t / 1000 mod 86400).
  assert (Hu : 0 <= u < 86400) by (apply Z.mod_pos_bound; lia).
  destruct (pad_width_spec 4 0 10000 y pad4_check_all ltac:(lia)) as (_ & _ & Sy & Dy).
  destruct (pad_width_spec 2 0 60 m pad2_check_all ltac:(lia)) as (_ & _ & Sm & Dm).
  destruct (pad_width_spec 2 0 60 d pad2_check_all ltac:(lia)) as (_ & _ & Sd & Dd).
  destruct (pad_width_spec 2 0 60 (u / 3600) pad2_check_all ltac:(split; [apply Z.div_pos; lia|apply Z.div_lt_upper_bound; lia])) as (_ & _ & Sh & Dh).
  destruct (pad_width_spec 2 0 60 (u / 60 mod 60) pad2_check_all ltac:(split; [apply Z.mod_pos_bound; lia|apply Z.mod_pos_bound; lia])) as (_ & _ & Smi & Dmi).
  destruct (pad_width_spec 2 0 60 (u mod 60) pad2_check_all ltac:(split; [apply Z.mod_pos_bound; lia|apply Z.mod_pos_bound; lia])) as (_ & _ & Ss & Ds).
  cbn [num_to_string] in Sy, Sm, Sd, Sh, Smi, Ss, Dy, Dm, Dd, Dh, Dmi, Ds. unfold pad.
  cbn [num_to_string].
  rewrite !strip_app, Sy, Sm, Sd, Sh, Smi, Ss.
  change (Part001.strip_iso_separators "-") with "".
  change (Part001.strip_iso_separators "T") with "".
  change (Part001.strip_iso_separators ":") with "".
  rewrite !string_app_nil_l.
  rewrite !before_first_dot_prefix by assumption.
  change (Part001.before_first_dot ("." +:+ ?x)) with "".
  rewrite string_app_nil_r. reflexivity.
Qed.

Lemma seconds_of_day u : 0 <= u < 86400 -> u = 3600 * (u / 3600) + 60 * (u / 60 mod 60) + u mod 60.
Proof.
  intros Hu. pose proof (Z.div_mod u 60 ltac:(lia)) as E1.
  pose proof (Z.div_mod (u / 60) 60 ltac:(lia)) as E2.
  rewrite Z.div_div in E2 by lia. change (60 * 60) with 3600 in E2. lia.
Qed.

Lemma iso_compact_inj k1 k2 :
  0 <= (civil_from_days (k1 / 86400)).1.1 <= 9999 ->
  0 <= (civil_from_days (k2 / 86400)).1.1 <= 9999 ->
  iso_compact k1 = iso_compact k2 -> k1 = k2.
Proof.
  intros Hy1 Hy2. unfold iso_compact, pad.
  pose proof (civil_from_days_spec (k1 / 86400)) as C1. pose proof (civil_from_days_spec (k2 / 86400)) as C2.
  pose proof (civil_from_days_inj (k1 / 86400) (k2 / 86400)) as Cinj.
  destruct (civil_from_days (k1 / 86400)) as [[y1 m1] d1] eqn:E1.
  destruct (civil_from_days (k2 / 86400)) as [[y2 m2] d2] eqn:E2. simpl in Hy1, Hy2.
  destruct C1 as (Hm1 & Hd1 & _). destruct C2 as (Hm2 & Hd2 & _).
  set (u1 := k1 mod 86400). set (u2 := k2 mod 86400).
  assert (U1 : 0 <= u1 < 86400) by (apply Z.mod_pos_bound; lia).
  assert (U2 : 0 <= u2 < 86400) by (apply Z.mod_pos_bound; lia).
  assert (R2 : forall z, 0 <= z < 60 ->
    String.length (pad_start (num_to_string (Some z)) 2 "0") = 2%nat /\
    digits_val 0 (pad_start (num_to_string (Some z)) 2 "0") = z).
  { intros z Hz. destruct (pad_width_spec 2 0 60 z pad2_check_all ltac:(lia)) as (L & V & _). done. }
  assert (Hh : forall u, 0 <= u < 86400 -> 0 <= u / 3600 < 60)
    by (intros u Hu; split; [apply Z.div_pos; lia|apply Z.div_lt_upper_bound; lia]).
  assert (Hmm : forall u, 0 <= u / 60 mod 60 < 60) by (intros u; apply Z.mod_pos_bound; lia).
  assert (Hss : forall u, 0 <= u mod 60 < 60) by (intros u; apply Z.mod_pos_bound; lia).
  destruct (pad_width_spec 4 0 10000 y1 pad4_check_all ltac:(lia)) as (Ly1 & Vy1 & _).
  destruct (pad_width_spec 4 0 10000 y2 pad4_check_all ltac:(lia)) as (Ly2 & Vy2 & _).
  destruct (R2 m1 ltac:(lia)) as [Lm1 Vm1]. destruct (R2 m2 ltac:(lia)) as [Lm2 Vm2].
  destruct (R2 d1 ltac:(lia)) as [Ld1 Vd1]. destruct (R2 d2 ltac:(lia)) as [Ld2 Vd2].
  destruct (R2 _ (Hh u1 U1)) as [Lh1 Vh1]. destruct (R2 _ (Hh u2 U2)) as [Lh2 Vh2].
  destruct (R2 _ (Hmm u1)) as [Li1 Vi1]. destruct (R2 _ (Hmm u2)) as [Li2 Vi2].
  intros E.
  destruct (string_app_inj _ _ _ _ (eq_trans Ly1 (eq_sym Ly2)) E) as [Ey F1].
  destruct (string_app_inj _ _ _ _ (eq_trans Lm1 (eq_sym Lm2)) F1) as [Em F2].
  destruct (string_app_inj _ _ _ _ (eq_trans Ld1 (eq_sym Ld2)) F2) as [Ed F3].
  destruct (string_app_inj _ _ _ _ (eq_trans Lh1 (eq_sym Lh2)) F3) as [Eh F4].
  destruct (string_app_inj _ _ _ _ (eq_trans Li1 (eq_sym Li2)) F4) as [Ei Es].
  apply (f_equal (digits_val 0)) in Ey, Em, Ed, Eh, Ei, Es.
  destruct (R2 _ (Hss u1)) as [_ Vs1]. destruct (R2 _ (Hss u2)) as [_ Vs2].
  rewrite Vy1, Vy2 in Ey. rewrite Vm1, Vm2 in Em. rewrite Vd1, Vd2 in Ed.
  rewrite Vh1, Vh2 in Eh. rewrite Vi1, Vi2 in Ei. rewrite Vs1, Vs2 in Es.
  subst y2 m2 d2. specialize (Cinj eq_refl).
  pose proof (seconds_of_day u1 U1) as S1. pose proof (seconds_of_day u2 U2) as S2.
  assert (Eu : u1 = u2) by lia.
  pose proof (Z.div_mod k1 86400 ltac:(lia)). pose proof (Z.div_mod k2 86400 ltac:(lia)).
  unfold u1, u2 in Eu. lia.
Qed.

Lemma no_slash_iso_compact k : no_slash (iso_compact k) = true.
Proof.
  unfold iso_compact. destruct (civil_from_days (k / 86400)) as [[y m] d].
  rewrite !no_slash_app, !no_slash_pad, no_slash_pad_start by apply no_slash_num_to_string. done.
Qed.

Lemma part001_generator_dated time t dir filename :
  falsy time = false -> new_date time = Some t ->
  0 <= (civil_from_days (t / ms_per_day)).1.1 <= 9999 ->
  Part001.generator time dir filename
  = Some (path_join dir (filename +:+ "-" +:+ iso_compact (t / 1000) +:+ ".log")).
Proof.
  intros Hf Ht Hy. pose proof (part001_timestamp t Hy) as Hts.
  unfold Part001.generator. rewrite Hf, Ht.
  destruct (Part001.to_iso_string (Some t)) as [iso|]; [|discriminate Hts].
  injection Hts as Hts. rewrite Hts. reflexivity.
Qed.

Lemma part001_names_same_second_aux time1 time2 t1 t2 dir filename
  (H1 : falsy time1 = false) (H2 : falsy time2 = false)
  (Ht1 : new_date time1 = Some t1) (Ht2 : new_date time2 = Some t2)
  (Hy1 : 0 <= (civil_from_days (t1 / ms_per_day)).1.1 <= 9999)
  (Hy2 : 0 <= (civil_from_days (t2 / ms_per_day)).1.1 <= 9999) :
  Part001.generator time1 dir filename = Part001.generator time2 dir filename
  <-> t1 / 1000 = t2 / 1000.
Proof.
  rewrite (part001_generator_dated time1 t1 dir filename H1 Ht1 Hy1).
  rewrite (part001_generator_dated time2 t2 dir filename H2 Ht2 Hy2).
  destruct (path_join_app dir filename) as [a Ha].
  assert (HX : forall k, no_slash ("-" +:+ iso_compact k +:+ ".log") = true /\
                         (3 <= String.length ("-" +:+ iso_compact k +:+ ".log"))%nat).
  { intros k. rewrite string_app_cons. cbn [String.length no_slash].
    rewrite !string_app_length, !no_slash_app, no_slash_iso_compact. split; [done|].
    change (String.length ".log") with 4%nat. lia. }
  destruct (HX (t1 / 1000)) as [N1 L1]. destruct (HX (t2 / 1000)) as [N2 L2].
  rewrite (Ha _ N1 L1), (Ha _ N2 L2).
  assert (D : forall t, t / ms_per_day = t / 1000 / 86400)
    by (intros t; unfold ms_per_day; rewrite Z.div_div by lia; reflexivity).
  rewrite D in Hy1, Hy2.
  split.
  - intros E. injection E as E. apply string_app_cancel_l, string_app_cancel_l, string_app_cancel_r in E.
    apply iso_compact_inj; assumption.
  - intros ->. reflexivity.
Qed.

(** Two dated part_001 names are equal exactly when the times fall in the
    same UTC second. *)
Lemma part001_names_same_second_iff time1 time2 t1 t2 dir filename
  (H1 : falsy time1 = false) (H2 : falsy time2 = false)
  (Ht1 : new_date time1 = Some t1) (Ht2 : new_date time2 = Some t2)
  (Hy1 : 0 <= (civil_from_days (t1 / ms_per_day)).1.1 <= 9999)
  (Hy2 : 0 <= (civil_from_days (t2 / ms_per_day)).1.1 <= 9999) :
  Part001.generator time1 dir filename = Part001.generator time2 dir filename
  <-> t1 / 1000 = t2 / 1000.
Proof. apply part001_names_same_second_aux; assumption. Qed.


Lemma no_slash_strip (s : string) : no_slash s = true -> no_slash (Part001.strip_iso_separators s) = true.
Proof.
  induction s as [|c s IH]; [done|]. simpl. intros H. apply andb_true_iff in H as [Hc H].
  destruct (decide _); simpl; [auto|]. rewrite Hc, IH by done. done.
Qed.

Lemma no_slash_before_first_dot (s : string) : no_slash s = true -> no_slash (Part001.before_first_dot s) = true.
Proof.
  induction s as [|c s IH]; [done|]. simpl. intros H. apply andb_true_iff in H as [Hc H].
  destruct (decide _); simpl; [done|]. rewrite Hc, IH by done. done.
Qed.

Lemma no_slash_to_iso_string (tv : js_number) (iso : string) :
  Part001.to_iso_string tv = Some iso -> no_slash iso = true.
Proof.
  destruct tv as [t|]; [|discriminate]. unfold Part001.to_iso_string.
  destruct (civil_from_days (t / ms_per_day)) as [[y m] d]. intros [= <-]. cbv zeta.
  assert (P : forall z n, no_slash (pad_start (NilEmpty.string_of_int (Z.to_int z)) n "0") = true)
    by (intros z n; apply (no_slash_pad_start (num_to_string (Some z))), no_slash_num_to_string).
  rewrite !no_slash_app, !P. destruct ((0 <=? y) && (y <=? 9999)); [rewrite P; reflexivity|].
  rewrite !no_slash_app, P. destruct (y <? 0); reflexivity.
Qed.

Lemma path_join_ends_log (dir filename x y : string) :
  no_slash x = true -> x = y +:+ ".log" -> exists a, path_join dir (filename +:+ x) = a +:+ ".log".
Proof.
  intros Hx ->. destruct (path_join_app dir filename) as [a Ha].
  exists (a +:+ y). rewrite Ha, string_app_assoc; [done|done|].
  rewrite string_app_length. change (String.length ".log") with 4%nat. lia.
Qed.

(** A dated part_001 name never equals the name of the active file. *)
Lemma part001_rotated_not_active time dir filename :
  falsy time = false ->
  Part001.generator time dir filename <> Part001.generator TNull dir filename.
Proof.
  intros Hf. unfold Part001.generator. rewrite Hf. simpl.
  destruct (Part001.to_iso_string (new_date time)) as [iso|] eqn:Hiso; [|discriminate].
  set (ts := Part001.before_first_dot (Part001.strip_iso_separators iso)).
  assert (Nts : no_slash ts = true)
    by (apply no_slash_before_first_dot, no_slash_strip, (no_slash_to_iso_string _ _ Hiso)).
  clearbody ts. destruct (path_join_app dir filename) as [a Ha].
  rewrite (Ha ("-" +:+ ts +:+ ".log")), (Ha ".log").
  - intros E. injection E as E. apply string_app_cancel_l in E. discriminate E.
  - reflexivity.
  - simpl. lia.
  - rewrite !no_slash_app, Nts. reflexivity.
  - rewrite !string_app_length. change (String.length ".log") with 4%nat. change (String.length "-") with 1%nat. lia.

Qed.

(** Every name the three generators return ends in [.log]. *)
Lemma names_end_in_log :
  (forall tz time index dir filename, exists a, Part000.generator tz time index dir filename = a +:+ ".log") /\
  (forall time dir filename name, Part001.generator time dir filename = Some name ->
     exists a, name = a +:+ ".log") /\
  (forall tz dir filename time index name, IndexTs.generator tz dir filename time index = Some name ->
     exists a, name = a +:+ ".log").
Proof.
  assert (Dated : forall tz tv index dir filename, exists a,
    path_join dir (filename +:+ "-" +:+ Part000.date_token tz tv +:+ "." +:+ index_to_string index +:+ ".log")
    = a +:+ ".log").
  { intros tz tv index dir filename.
    apply (path_join_ends_log dir filename _ ("-" +:+ Part000.date_token tz tv +:+ "." +:+ index_to_string index)).
    - apply (part000_dated_tail tz tv index).
    - rewrite !string_app_assoc. reflexivity. }
  assert (Null : forall dir filename, exists a, path_join dir (filename +:+ ".log") = a +:+ ".log")
    by (intros dir filename; apply (path_join_ends_log dir filename ".log" ""); reflexivity).
  split; [|split].
  - intros tz time index dir filename. unfold Part000.generator.
    destruct (falsy time); [apply Null|apply Dated].
  - intros time dir filename name. unfold Part001.generator. destruct (falsy time).
    + intros [= <-]. apply Null.
    + destruct (Part001.to_iso_string (new_date time)) as [iso|] eqn:Hiso; [|discriminate].
      intros [= <-].
      apply (path_join_ends_log dir filename _ ("-" +:+ Part001.before_first_dot (Part001.strip_iso_separators iso))).
      * rewrite !no_slash_app, no_slash_before_first_dot; [reflexivity|].
        apply no_slash_strip, (no_slash_to_iso_string _ _ Hiso).
      * rewrite string_app_assoc. reflexivity.
  - intros tz dir filename time index name. unfold IndexTs.generator. destruct (falsy time).
    + intros [= <-]. apply (Null dir "app").
    + destruct time as [|n|tv]; [discriminate|discriminate|]. intros [= <-]. apply Dated.
Qed.

(** C9 (amended): the generators name rotated files by a calendar bucket
    of their own, not by the rotation interval. For truthy times with
    valid time values [t1] and [t2], every index, directory and filename:
    part_000's names are equal exactly when [t1] and [t2] fall on the same
    local calendar day, so two times in different buckets of an interval
    shorter than a day but on the same day get the same name; part_001's
    names (UTC years 0 to 9999) are equal exactly when [t1] and [t2] fall
    in the same UTC second, so times in different seconds, and hence in
    different buckets of any interval, get distinct names. *)
Theorem generator_names_eq_iff tz time1 time2 t1 t2 index dir filename
  (H1 : falsy time1 = false) (H2 : falsy time2 = false)
  (Ht1 : new_date time1 = Some t1) (Ht2 : new_date time2 = Some t2) :
  (Part000.generator tz time1 index dir filename = Part000.generator tz time2 index dir filename
   <-> local_time tz t1 / ms_per_day = local_time tz t2 / ms_per_day) /\
  (0 <= (civil_from_days (t1 / ms_per_day)).1.1 <= 9999 ->
   0 <= (civil_from_days (t2 / ms_per_day)).1.1 <= 9999 ->
   Part001.generator time1 dir filename = Part001.generator time2 dir filename
   <-> t1 / 1000 = t2 / 1000).
Proof.
  split.
  - apply part000_names_same_day_iff; assumption.
  - intros Hy1 Hy2. apply part001_names_same_second_aux; assumption.
Qed.

End NameProofs.


(* ================================================================== *)
(** * The theorems at concrete inputs *)

Lemma missing_dir_rejects_before_effects_witness :
  IndexTs.pinoTransportRotatingFile utc (Some (index_opts None None))
  = (Rejected "Missing required option: dir", []) /\
  Part001.pinoTransportRotatingFile (Some (part001_opts (Some "") None))
  = (Rejected "Missing required option: dir", []).
Proof.
  split.
  - apply (proj1 (missing_dir_rejects_before_effects utc)); simpl; [discriminate | left; reflexivity].
  - apply (proj2 (missing_dir_rejects_before_effects utc)); simpl; [discriminate | right; reflexivity].
Defined.

Lemma disabled_ignores_dir_witness :
  IndexTs.pinoTransportRotatingFile utc (Some index_disabled) = (Resolved Passthrough, []) /\
  Part000.pinoTransportRotatingFile utc (Some part000_disabled) = (Resolved Passthrough, []) /\
  Part001.pinoTransportRotatingFile (Some part001_disabled) = (Resolved Passthrough, []).
Proof.
  destruct (disabled_ignores_dir utc) as [H1 [H2 H3]].
  split; [apply H1 | split; [apply H2 | apply H3]]; reflexivity.
Defined.

Lemma disabled_no_filesystem_witness :
  exists t,
    Part001.pinoTransportRotatingFile (Some part001_disabled) = (Resolved t, []) /\
    forall (record : Type) (pretty : record -> Part001.thrown + string)
           (records : list record),
      Part001.deliver record pretty t records = (records, []).
Proof. apply disabled_no_filesystem. reflexivity. Defined.

Lemma compress_failure_keeps_original_witness :
  let '(w', r) := Part001.compressFile gz_stub p0 (p0 +:+ ".gz") w_pipe_fault in
  r = inr tt /\ Part001.fs w' !! p0 = Part001.fs w_pipe_fault !! p0 /\
  (exists pre e, Part001.console w' = Part001.console w_pipe_fault ++
                   [Part001.ConsoleError (pre +:+ p0 +:+ ":") (Some e)]) /\
  (forall c n, Part001.fs w_pipe_fault !! p0 = Some (Part001.EFile c) ->
     Part001.stat_fault (Part001.faults w_pipe_fault) = None ->
     Part001.pipe_fault (Part001.faults w_pipe_fault) = Some (n, true) ->
     Part001.fs w' !! (p0 +:+ ".gz") = Some (Part001.EFile (take n (gz_stub c)))).
Proof.
  apply CompressorProofs.compress_failure_keeps_original.
  - apply CompressorProofs.app_gz_neq.
  - split; [eexists; vm_compute; reflexivity|]. right; left. simpl. eexists; reflexivity.
Defined.

Lemma rotated_file_compressed_witness :
  let s' := Part001.run gz_stub (Part001.initial_loop true w_race)
              [Part001.Rotated p0; Part001.Settle 0; Part001.Settle 0] in
  Part001.fs (Part001.lw s') !! p0 = None /\
  (exists z, Part001.fs (Part001.lw s') !! (p0 +:+ ".gz") = Some (Part001.EFile z) /\
             gunzip_stub z = [Byte.x41; Byte.x42]) /\
  Part001.attempts s' = [p0] /\ p0 ∈ Part001.compressedFiles s' /\ Part001.pending s' = [].
Proof.
  apply (CompressorProofs.rotated_file_compressed gz_stub gunzip_stub (fun x => eq_refl)
           (Part001.initial_loop true w_race) p0 [Byte.x41; Byte.x42]).
  - reflexivity.
  - apply not_elem_of_empty.
  - reflexivity.
  - reflexivity.
  - vm_compute. reflexivity.
Defined.

Lemma render_failure_tears_down_witness :
  Part001.run_pipeline string pretty_stub ["a"; "bad"; "ok"] =
  {| Part001.destroyed := true; Part001.written := ["a" +:+ eol];
     Part001.transport_log := [Part001.to_error (Part001.ThrownError "Unexpected token b in JSON")] |} /\
  Part000Render.run_pipeline string pretty0_stub ["a"; "bad"; "ok"] =
  {| Part001.destroyed := true; Part001.written := ["a" +:+ eol];
     Part001.transport_log := ["An unknown error occurred"] |}.
Proof.
  split.
  - apply (proj1 CompressorProofs.render_failure_tears_down string pretty_stub ["a"] ["ok"] "bad").
    + constructor; [vm_compute; reflexivity | constructor].
    + vm_compute. reflexivity.
  - apply (proj2 CompressorProofs.render_failure_tears_down string pretty0_stub ["a"] ["ok"] "bad"
             ["a" +:+ eol] Part000Render.ThrownOther).
    + constructor; [vm_compute; reflexivity | constructor].
    + vm_compute. reflexivity.
Defined.

Lemma generator_names_eq_iff_witness :
  (Part000.generator utc (TDate (Some t_10h)) (Some 1) "logs" "app"
   = Part000.generator utc (TDate (Some t_11h)) (Some 1) "logs" "app"
   <-> local_time utc t_10h / ms_per_day = local_time utc t_11h / ms_per_day) /\
  (Part001.generator (TDate (Some t_10h)) "logs" "app"
   = Part001.generator (TDate (Some t_11h)) "logs" "app"
   <-> t_10h / 1000 = t_11h / 1000).
Proof.
  destruct (NameProofs.generator_names_eq_iff utc (TDate (Some t_10h)) (TDate (Some t_11h))
              t_10h t_11h (Some 1) "logs" "app" eq_refl eq_refl eq_refl eq_refl) as [H0 H1].
  split; [exact H0|]. apply H1; vm_compute; split; discriminate.
Defined.

Lemma compressFile_skips_witness :
  Part001.compressFile gz_stub p0 (p0 +:+ ".gz") w_empty
  = (Part001.log w_empty (Part001.ConsoleWarn ("Skipping compression, file does not exist: " +:+ p0)), inr tt) /\
  Part001.compressFile gz_stub p0 (p0 +:+ ".gz") w_dir
  = (Part001.log w_dir (Part001.ConsoleWarn ("Skipping compression, source is a directory: " +:+ p0)), inr tt).
Proof.
  split.
  - apply (proj1 (ListenerProofs.compressFile_skips gz_stub p0 (p0 +:+ ".gz") w_empty)).
    vm_compute. reflexivity.
  - apply (proj2 (ListenerProofs.compressFile_skips gz_stub p0 (p0 +:+ ".gz") w_dir));
      vm_compute; reflexivity.
Defined.

Lemma compressFile_unlink_enoent_silent_witness :
  Part001.compressFile gz_stub p0 (p0 +:+ ".gz") w_unlink_enoent
  = (Part001.set_fs w_unlink_enoent
       (<[p0 +:+ ".gz" := Part001.EFile (gz_stub [Byte.x41; Byte.x42])]> (Part001.fs w_unlink_enoent)),
     inr tt).
Proof.
  apply (ListenerProofs.compressFile_unlink_enoent_silent gz_stub p0 (p0 +:+ ".gz") w_unlink_enoent
           [Byte.x41; Byte.x42]).
  - reflexivity.
  - vm_compute. reflexivity.
Defined.

Lemma sequential_duplicate_compressed_once_witness :
  let s := Part001.run gz_stub (Part001.initial_loop true w_race)
             [Part001.Rotated p0; Part001.Settle 0; Part001.Settle 0;
              Part001.Rotated p0; Part001.Settle 0; Part001.Settle 0] in
  Part001.attempts s = [p0] /\ Part001.compressedFiles s = {[p0]} /\ Part001.pending s = [] /\
  Part001.lw s = Part001.set_fs w_race
    (delete p0 (<[p0 +:+ ".gz" := Part001.EFile (gz_stub [Byte.x41; Byte.x42])]> (Part001.fs w_race))).
Proof.
  apply (ListenerProofs.sequential_duplicate_compressed_once gz_stub w_race p0 [Byte.x41; Byte.x42]).
  - reflexivity.
  - vm_compute. reflexivity.
Defined.

Lemma listener_no_compress_on_stat_error_or_dir_witness :
  (let s := Part001.run gz_stub (Part001.initial_loop true w_stat_fault) [Part001.Rotated p0; Part001.Settle 0] in
   Part001.attempts s = [] /\ Part001.compressedFiles s = ∅ /\ Part001.pending s = [] /\
   Part001.lw s = Part001.log w_stat_fault
     (Part001.ConsoleError ("Error compressing rotated file " +:+ p0 +:+ ":") (Some {| Part001.code := "EACCES" |}))) /\
  (let s := Part001.run gz_stub (Part001.initial_loop true w_empty) [Part001.Rotated p0; Part001.Settle 0] in
   Part001.attempts s = [] /\ Part001.compressedFiles s = ∅ /\ Part001.pending s = [] /\
   Part001.lw s = Part001.log w_empty
     (Part001.ConsoleError ("Error compressing rotated file " +:+ p0 +:+ ":") (Some {| Part001.code := "ENOENT" |}))) /\
  (let s := Part001.run gz_stub (Part001.initial_loop true w_dir) [Part001.Rotated p0; Part001.Settle 0] in
   Part001.attempts s = [] /\ Part001.compressedFiles s = ∅ /\ Part001.pending s = [] /\
   Part001.lw s = Part001.log w_dir
     (Part001.ConsoleWarn ("Skipping compression, rotated file is a directory: " +:+ p0))).
Proof.
  destruct (ListenerProofs.listener_no_compress_on_stat_error_or_dir gz_stub w_stat_fault p0) as [Hs _].
  destruct (ListenerProofs.listener_no_compress_on_stat_error_or_dir gz_stub w_empty p0) as [_ [He _]].
  destruct (ListenerProofs.listener_no_compress_on_stat_error_or_dir gz_stub w_dir p0) as [_ [_ Hd]].
  split; [|split].
  - apply Hs. reflexivity.
  - apply He; reflexivity.
  - apply Hd; [reflexivity | vm_compute; reflexivity].
Defined.


Lemma part000_rotated_not_active_witness :
  Part000.generator utc (TDate (Some t_10h)) (Some 1) "logs" "app"
  <> Part000.generator utc TNull None "logs" "app".
Proof. apply NameProofs.part000_rotated_not_active. reflexivity. Defined.

Lemma index_ts_generator_vs_part000_witness :
  IndexTs.generator utc "logs" "app" TNull None = Some (path_join "logs" "app.log").
Proof. apply (proj1 (proj2 (NameProofs.index_ts_generator_vs_part000 utc "logs" "app"))). reflexivity. Defined.

Lemma invalid_date_names_witness :
  Part000.generator utc (TDate None) (Some 1) "logs" "app"
  = path_join "logs" ("app" +:+ "-NaN-NaN-NaN." +:+ index_to_string (Some 1) +:+ ".log") /\
  Part001.generator (TDate None) "logs" "app" = None.
Proof. apply NameProofs.invalid_date_names; reflexivity. Defined.

Lemma part000_names_eq_iff_witness :
  Part000.generator utc (TDate (Some t_10h)) (Some 1) "logs" "app"
  = Part000.generator utc (TDate (Some t_11h)) (Some 2) "logs" "app"
  <-> local_time utc t_10h / ms_per_day = local_time utc t_11h / ms_per_day /\ Some 1 = Some 2.
Proof.
  apply (NameProofs.part000_names_eq_iff utc (TDate (Some t_10h)) (TDate (Some t_11h))
           t_10h t_11h (Some 1) (Some 2) "logs" "app"); reflexivity.
Defined.

Lemma part001_timestamp_witness :
  option_map (fun iso => Part001.before_first_dot (Part001.strip_iso_separators iso))
    (Part001.to_iso_string (Some t_10h)) = Some (iso_compact (t_10h / 1000)).
Proof. apply NameProofs.part001_timestamp. vm_compute. split; discriminate. Defined.

Lemma part001_names_same_second_iff_witness :
  Part001.generator (TDate (Some t_10h)) "logs" "app"
  = Part001.generator (TDate (Some t_11h)) "logs" "app"
  <-> t_10h / 1000 = t_11h / 1000.
Proof.
  apply (NameProofs.part001_names_same_second_iff (TDate (Some t_10h)) (TDate (Some t_11h))
           t_10h t_11h "logs" "app"); try reflexivity; vm_compute; split; discriminate.
Defined.

Lemma part001_rotated_not_active_witness :
  Part001.generator (TDate (Some t_10h)) "logs" "app" <> Part001.generator TNull "logs" "app".
Proof. apply NameProofs.part001_rotated_not_active. reflexivity. Defined.

Lemma names_end_in_log_witness :
  exists a, "logs/app-20240101100000.log" = a +:+ ".log".
Proof.
  apply (proj1 (proj2 NameProofs.names_end_in_log) (TDate (Some t_10h)) "logs" "app").
  vm_compute. reflexivity.
Defined.
